(** * pr-dday-labeler: the D-day label countdown of [src/index.ts]

    A shallow embedding of the GitHub action [src/index.ts] and the proofs of
    the properties its specification states.

    - [Js]: the fragment of the JavaScript runtime the action relies on
      (strings, [parseInt], IEEE-754 doubles restricted to the integer values
      [parseInt] can produce, [Number::toString]).
    - [Slack]: the message built by [sendSlackNotification].
    - the action itself: [updatePRLabels], [addDdayLabel], [run], written in a
      small state-and-exception monad over a world that holds the tracker's
      pull requests, the trace of outgoing calls and the failures of the
      network. *)

From Stdlib Require Import ZArith String Ascii List Bool Lia.
Import ListNotations.

Open Scope string_scope.
Open Scope Z_scope.

(* ================================================================== *)
(** ** The JavaScript runtime fragment *)
(* ================================================================== *)

Module Js.

(** A string is a sequence of UTF-16 code units; the model keeps the code
    units below 256, one [ascii] each. *)
Definition code (c : ascii) : Z := Z.of_N (N_of_ascii c).

(** [s.startsWith(p)] *)
Fixpoint startsWith (s p : string) {struct p} : bool :=
  match p with
  | EmptyString => true
  | String c p' =>
      match s with
      | String d s' => Ascii.eqb c d && startsWith s' p'
      | EmptyString => false
      end
  end.

(** [s.slice(n)] for [0 <= n]: the string without its first [n] code units,
    empty when [s] is shorter. *)
Fixpoint slice (n : nat) (s : string) : string :=
  match n, s with
  | O, _ => s
  | S _, EmptyString => EmptyString
  | S n', String _ r => slice n' r
  end.

(** *** Numbers

    [parseInt] only produces NaN, the infinities and integer-valued doubles
    (among them the two zeros), and [x - 1] stays inside that set, so a number
    is a sign and a magnitude; the magnitude of a [Finite] is an integer that
    is exactly a double. *)
Inductive number : Type :=
  | NaN
  | Finite (negative : bool) (magnitude : Z)
  | Infinity (negative : bool).

(** The double nearest to the non-negative integer [m], ties to even; [None]
    when [m] rounds above the largest finite double. *)
Definition round_double (m : Z) : option Z :=
  if m <? 2 ^ 53 then Some m
  else
    let e := Z.log2 m - 52 in
    let q := Z.shiftr m e in
    let r := m - Z.shiftl q e in
    let half := 2 ^ (e - 1) in
    let q' := if (half <? r) || ((r =? half) && Z.odd q) then q + 1 else q in
    let v := Z.shiftl q' e in
    if v <? 2 ^ 1024 then Some v else None.

Definition of_integer (negative : bool) (m : Z) : number :=
  match round_double m with
  | Some v => Finite negative v
  | None => Infinity negative
  end.

(** [x > 0] *)
Definition gt_zero (x : number) : bool :=
  match x with
  | NaN => false
  | Finite false m => 0 <? m
  | Finite true _ => false
  | Infinity negative => negb negative
  end.

(** [x - 1] *)
Definition sub_one (x : number) : number :=
  match x with
  | NaN => NaN
  | Infinity s => Infinity s
  | Finite false m => if m =? 0 then Finite true 1 else of_integer false (m - 1)
  | Finite true m => of_integer true (m + 1)
  end.

(** *** parseInt *)

(** White space and line terminators (below code unit 256): TAB, LF, VT, FF,
    CR, SP, NBSP. *)
Definition is_white_space (c : ascii) : bool :=
  let n := code c in
  ((9 <=? n) && (n <=? 13)) || (n =? 32) || (n =? 160).

Fixpoint trim_start (s : string) : string :=
  match s with
  | String c r => if is_white_space c then trim_start r else s
  | EmptyString => s
  end.

(** The value of [c] as a digit of radix [R], if it is one. *)
Definition digit_value (R : Z) (c : ascii) : option Z :=
  let n := code c in
  let v := if (48 <=? n) && (n <=? 57) then n - 48
           else if (97 <=? n) && (n <=? 122) then n - 87
           else if (65 <=? n) && (n <=? 90) then n - 55
           else R in
  if v <? R then Some v else None.

(** The integer written by the longest prefix of radix-[R] digits of [s],
    [None] when that prefix is empty. *)
Fixpoint scan_digits (R : Z) (s : string) (acc : Z) (seen : bool) : option Z :=
  match s with
  | String c r =>
      match digit_value R c with
      | Some d => scan_digits R r (acc * R + d) true
      | None => if seen then Some acc else None
      end
  | EmptyString => if seen then Some acc else None
  end.

Definition is_x (c : ascii) : bool := Ascii.eqb c "x" || Ascii.eqb c "X".

(** [parseInt(s)], no radix given: leading white space is skipped, one sign
    is read, a [0x]/[0X] prefix selects radix 16, the digits are read up to
    the first code unit that is not one, and the integer they write is rounded
    to a double ([NaN] when there is no digit). *)
Definition parseInt (s : string) : number :=
  let s1 := trim_start s in
  let '(negative, s2) :=
    match s1 with
    | String c r =>
        if Ascii.eqb c "-" then (true, r)
        else if Ascii.eqb c "+" then (false, r)
        else (false, s1)
    | EmptyString => (false, s1)
    end in
  let '(R, s3) :=
    match s2 with
    | String c0 (String c1 r) =>
        if Ascii.eqb c0 "0" && is_x c1 then (16, r) else (10, s2)
    | _ => (10, s2)
    end in
  match scan_digits R s3 0 false with
  | Some m => of_integer negative m
  | None => NaN
  end.

(** *** Number::toString *)

Definition digit_char (d : Z) : ascii := ascii_of_N (Z.to_N (48 + d)).

Fixpoint decimal_loop (fuel : nat) (n : Z) (acc : string) : string :=
  match fuel with
  | O => acc
  | S fuel' =>
      let acc' := String (digit_char (n mod 10)) acc in
      if n <? 10 then acc' else decimal_loop fuel' (n / 10) acc'
  end.

(** The decimal digits of [n >= 0], most significant first. *)
Definition decimal (n : Z) : string :=
  decimal_loop (S (Z.to_nat (Z.log2 n))) n EmptyString.

(** The decimal numeral of an integer, as [String(d)] writes a safe integer. *)
Definition int_to_string (d : Z) : string :=
  if d <? 0 then String "-" (decimal (- d)) else decimal d.

Definition rounds_to (m x : Z) : bool :=
  match round_double m with
  | Some v => v =? x
  | None => false
  end.

(** The multiples of [scale] around [x] that still read back as [x]: the one
    nearer to [x], on a tie the one with the even leading part. *)
Definition candidate (x scale : Z) : option Z :=
  let lo := (x / scale) * scale in
  let hi := lo + scale in
  match rounds_to lo x, rounds_to hi x with
  | true, true =>
      if x - lo <? hi - x then Some lo
      else if hi - x <? x - lo then Some hi
      else if Z.even (x / scale) then Some lo else Some hi
  | true, false => Some lo
  | false, true => Some hi
  | false, false => None
  end.

(** The integer with the fewest significant digits that reads back as the
    double [x]: tried from one significant digit ([10 ^ j] with [j] one less
    than the length of [x]) down to all of them. *)
Fixpoint shortest (x : Z) (j : nat) : Z :=
  match j with
  | O => x
  | S j' =>
      match candidate x (10 ^ Z.of_nat j) with
      | Some v => v
      | None => shortest x j'
      end
  end.

Fixpoint strip_trailing_zeros (s : string) : string :=
  match s with
  | EmptyString => EmptyString
  | String c r =>
      match strip_trailing_zeros r with
      | EmptyString => if Ascii.eqb c "0" then EmptyString else String c EmptyString
      | r' => String c r'
      end
  end.

(** [String(x)] for a finite double [x > 0] with an integer value. *)
Definition positive_to_string (x : Z) : string :=
  let v := shortest x (Nat.pred (String.length (decimal x))) in
  if v <? 10 ^ 21 then decimal v
  else
    let e := decimal (Z.of_nat (Nat.pred (String.length (decimal v)))) in
    match strip_trailing_zeros (decimal v) with
    | String d EmptyString => String d (String "e" (String "+" e))
    | String d r => String d (String "." (r ++ String "e" (String "+" e)))
    | EmptyString => EmptyString
    end.

(** [String(x)], as a template literal applies it. *)
Definition number_to_string (x : number) : string :=
  match x with
  | NaN => "NaN"
  | Infinity false => "Infinity"
  | Infinity true => "-Infinity"
  | Finite negative m =>
      if m =? 0 then "0"
      else if negative then String "-" (positive_to_string m)
      else positive_to_string m
  end.

End Js.

(* ================================================================== *)
(** ** The tracker, the chat message and the world *)
(* ================================================================== *)

(** What the action reads of a pull request of [octokit.rest.pulls]. *)
Record Label : Type := { name : string }.

Record User : Type := { login : string }.

Inductive PullState : Type := Open | Closed.

Record PullRequest : Type := {
  number : Z;
  title : string;
  html_url : string;
  user : option User;
  labels : list Label;
  state : PullState
}.

(** The [pr] argument of [sendSlackNotification]; [author] is [pr.user.login]. *)
Record Summary : Type := {
  s_number : Z;
  s_title : string;
  s_html_url : string;
  s_author : string
}.

Module Slack.

(** [{ type: "mrkdwn", text }] *)
Inductive TextObject : Type := Mrkdwn (text : string).

(** [{ type: "section", text }] and [{ type: "section", fields }] *)
Inductive Block : Type :=
  | SectionText (text : TextObject)
  | SectionFields (fields : list TextObject).

Record Message : Type := { text : string; blocks : list Block }.

End Slack.

(** A value that was thrown: an [Error] object with its message, or anything
    else. *)
Inductive thrown : Type :=
  | Error (message : string)
  | NotAnError.

Inductive completion (A : Type) : Type :=
  | Normal (a : A)
  | Throw (e : thrown).
Arguments Normal {A} a.
Arguments Throw {A} e.

(** The requests the action sends, with the arguments it passes. *)
Inductive call : Type :=
  | PullsList (owner repo : string) (state : PullState)
  | IssuesSetLabels (owner repo : string) (issue_number : Z) (labels : list string)
  | IssuesAddLabels (owner repo : string) (issue_number : Z) (labels : list string)
  | PullsGet (owner repo : string) (pull_number : Z)
  | AxiosPost (url : string) (message : Slack.Message).

Inductive event : Type :=
  | Call (c : call)
  | ConsoleLog (line : string)
  | SetFailed (message : string).

(** The world of one invocation: the tracker's pull requests, which of the
    requests fail (by their position among the requests sent) and with what,
    how many requests were sent, and everything the action did, oldest
    first. *)
Record world : Type := {
  pulls : list PullRequest;
  failures : nat -> option thrown;
  requests : nat;
  trace : list event
}.

(** A computation: state passing over the world, with exceptions. *)
Definition M (A : Type) : Type := world -> completion A * world.

Definition ret {A : Type} (a : A) : M A := fun w => (Normal a, w).

Definition bind {A B : Type} (m : M A) (k : A -> M B) : M B :=
  fun w =>
    match m w with
    | (Normal a, w') => k a w'
    | (Throw e, w') => (Throw e, w')
    end.

Definition throw {A : Type} (e : thrown) : M A := fun w => (Throw e, w).

(** [try { m } catch (error) { handler(error) }] *)
Definition try_catch {A : Type} (m : M A) (handler : thrown -> M A) : M A :=
  fun w =>
    match m w with
    | (Normal a, w') => (Normal a, w')
    | (Throw e, w') => handler e w'
    end.

Declare Scope action_scope.
Delimit Scope action_scope with action.
Notation "x <- m ;; k" := (bind m (fun x => k))
  (at level 61, m at next level, right associativity) : action_scope.
Notation "m ;; k" := (bind m (fun _ => k))
  (at level 61, right associativity) : action_scope.
Notation "' p <- m ;; k" := (bind m (fun x => let 'p := x in k))
  (at level 61, p pattern, m at next level, right associativity) : action_scope.
Open Scope action_scope.

Definition emit (e : event) (w : world) : world :=
  {| pulls := pulls w; failures := failures w; requests := requests w;
     trace := (trace w ++ [e])%list |}.

Definition console_log (line : string) : M unit :=
  fun w => (Normal tt, emit (ConsoleLog line) w).

(** [core.setFailed(message)] *)
Definition setFailed (message : string) : M unit :=
  fun w => (Normal tt, emit (SetFailed message) w).

(** One request: it is recorded and counted; it throws when the world says
    that this request fails, and otherwise the tracker answers it. *)
Definition request {A : Type} (c : call)
    (answer : list PullRequest -> completion A * list PullRequest) : M A :=
  fun w =>
    let sent := {| pulls := pulls w; failures := failures w;
                   requests := S (requests w); trace := (trace w ++ [Call c])%list |} in
    match failures w (requests w) with
    | Some e => (Throw e, sent)
    | None =>
        let '(r, ps) := answer (pulls w) in
        (r, {| pulls := ps; failures := failures sent;
               requests := requests sent; trace := trace sent |})
    end.

(** *** The tracker's answers *)

Definition is_open (pr : PullRequest) : bool :=
  match state pr with Open => true | Closed => false end.

Definition has_number (n : Z) (pr : PullRequest) : bool := number pr =? n.

(** The page size of a list request that names none. *)
Definition per_page : nat := 30.

Definition with_labels (pr : PullRequest) (ls : list Label) : PullRequest :=
  {| number := number pr; title := title pr; html_url := html_url pr;
     user := user pr; labels := ls; state := state pr |}.

Definition has_name (n : string) (l : Label) : bool := String.eqb (name l) n.

(** Replace: the label set becomes the given one. *)
Definition replace_labels (ls : list string) (pr : PullRequest) : PullRequest :=
  with_labels pr (map (fun n => {| name := n |}) ls).

(** Add: the labels the pull request has stay, the new ones follow. *)
Definition add_labels (ls : list string) (pr : PullRequest) : PullRequest :=
  with_labels pr
    (labels pr ++
     map (fun n => {| name := n |})
       (filter (fun n => negb (existsb (has_name n) (labels pr))) ls))%list.

Definition not_found {A : Type} : completion A := Throw (Error "Not Found").

Definition on_pull {A : Type} (n : Z) (ps : list PullRequest)
    (found : A) (f : PullRequest -> PullRequest) : completion A * list PullRequest :=
  if existsb (has_number n) ps
  then (Normal found, map (fun pr => if has_number n pr then f pr else pr) ps)
  else (not_found, ps).

(** [octokit.rest.pulls.list({ owner, repo, state: "open" })]: the first page. *)
Definition pulls_list (owner repo : string) : M (list PullRequest) :=
  request (PullsList owner repo Open)
    (fun ps => (Normal (firstn per_page (filter is_open ps)), ps)).

(** [octokit.rest.issues.setLabels({ owner, repo, issue_number, labels })] *)
Definition issues_setLabels (owner repo : string) (issue_number : Z)
    (ls : list string) : M unit :=
  request (IssuesSetLabels owner repo issue_number ls)
    (fun ps => on_pull issue_number ps tt (replace_labels ls)).

(** [octokit.rest.issues.addLabels({ owner, repo, issue_number, labels })] *)
Definition issues_addLabels (owner repo : string) (issue_number : Z)
    (ls : list string) : M unit :=
  request (IssuesAddLabels owner repo issue_number ls)
    (fun ps => on_pull issue_number ps tt (add_labels ls)).

(** [octokit.rest.pulls.get({ owner, repo, pull_number })] *)
Definition pulls_get (owner repo : string) (pull_number : Z) : M PullRequest :=
  request (PullsGet owner repo pull_number)
    (fun ps =>
       match find (has_number pull_number) ps with
       | Some pr => (Normal pr, ps)
       | None => (not_found, ps)
       end).

(** [axios.post(url, message)] *)
Definition axios_post (url : string) (message : Slack.Message) : M unit :=
  request (AxiosPost url message) (fun ps => (Normal tt, ps)).

(* ================================================================== *)
(** ** The action *)
(* ================================================================== *)

(** [type DdayLabel = "D-3" | "D-2" | "D-1" | "D-0"]: erased at run time, where
    a label is whatever string the code computed. *)
Definition DdayLabel : Type := string.

(** The double of a pull request number, and its rendering in a template. *)
Definition of_Z (z : Z) : Js.number := Js.of_integer (z <? 0) (Z.abs z).

Definition show (z : Z) : string := Js.number_to_string (of_Z z).

Definition dquote : string := String (ascii_of_nat 34) EmptyString.

(** *** sendSlackNotification *)

(** Lines 136-166: the text and the two blocks every message has. *)
Definition summary_text (pr : Summary) (label : DdayLabel) : string :=
  "PR #" ++ show (s_number pr) ++ " " ++ dquote ++ s_title pr ++ dquote
  ++ " has been labeled with " ++ label.

Definition header (pr : Summary) : Slack.Block :=
  Slack.SectionText
    (Slack.Mrkdwn ("*PR #" ++ show (s_number pr) ++ " has been updated*")).

Definition fields (pr : Summary) (label : DdayLabel) : Slack.Block :=
  Slack.SectionFields
    [ Slack.Mrkdwn ("*Title:* " ++ s_title pr);
      Slack.Mrkdwn ("*Label:* " ++ label);
      Slack.Mrkdwn ("*Author:* " ++ s_author pr);
      Slack.Mrkdwn ("*Link:* <" ++ s_html_url pr ++ "|View PR>") ].

(** Lines 170-176: the block pushed for [D-0]. *)
Definition warning : Slack.Block :=
  Slack.SectionText (Slack.Mrkdwn ":warning: *This PR is due today!* :warning:").

(** Lines 135-177: the message, before it is posted. *)
Definition notification (pr : Summary) (label : DdayLabel) : Slack.Message :=
  let blocks := [header pr; fields pr label] in
  {| Slack.text := summary_text pr label;
     Slack.blocks :=
       if String.eqb label "D-0" then (blocks ++ [warning])%list else blocks |}.

Definition sendSlackNotification (slackWebhookUrl : string) (pr : Summary)
    (label : DdayLabel) : M unit :=
  axios_post slackWebhookUrl (notification pr label).

(** [{ number, title, html_url, user: { login: pr.user?.login ?? "Unknown" } }] *)
Definition summary (pr : PullRequest) : Summary :=
  {| s_number := number pr;
     s_title := title pr;
     s_html_url := html_url pr;
     s_author := match user pr with Some u => login u | None => "Unknown" end |}.

(** *** updatePRLabels *)

Definition is_dday (n : string) : bool := Js.startsWith n "D-".

(** Line 46: [pr.labels.find((label) => label.name.startsWith("D-"))] *)
Definition currentLabel (pr : PullRequest) : option Label :=
  find (fun label => is_dday (name label)) (labels pr).

(** Lines 51-60, the value of [newLabel]. *)
Definition newLabel (pr : PullRequest) : DdayLabel :=
  match currentLabel pr with
  | None => "D-3"
  | Some current =>
      let day := Js.parseInt (Js.slice 2 (name current)) in
      if Js.gt_zero day
      then "D-" ++ Js.number_to_string (Js.sub_one day)
      else "D-0"
  end.

(** Line 62: [newLabel !== currentLabel?.name] *)
Definition changed (pr : PullRequest) : bool :=
  match currentLabel pr with
  | None => true
  | Some current => negb (String.eqb (newLabel pr) (name current))
  end.

(** Lines 68-73: the labels passed to [setLabels]. *)
Definition written_labels (pr : PullRequest) : list string :=
  newLabel pr ::
  map name (filter (fun label => negb (is_dday (name label))) (labels pr)).

(** Lines 46-90: the body of the loop, for one pull request of the page. *)
Definition update_one (owner repo slackWebhookUrl : string) (pr : PullRequest)
    : M unit :=
  match currentLabel pr with
  | None =>
      console_log
        ("PR #" ++ show (number pr) ++ ": No D- label found, setting to D-3")
  | Some current =>
      console_log
        ("PR #" ++ show (number pr) ++ ": Current label is " ++ name current
         ++ ", setting to " ++ newLabel pr)
  end ;;
  if changed pr then
    console_log
      ("PR #" ++ show (number pr) ++ ": Updating label to " ++ newLabel pr) ;;
    issues_setLabels owner repo (number pr) (written_labels pr) ;;
    sendSlackNotification slackWebhookUrl (summary pr) (newLabel pr)
  else
    console_log
      ("PR #" ++ show (number pr) ++ ": Label is already set to " ++ newLabel pr
       ++ ", no update needed.").

(** [for (const x of xs) { body }] *)
Fixpoint for_of {A : Type} (xs : list A) (body : A -> M unit) : M unit :=
  match xs with
  | [] => ret tt
  | x :: rest => body x ;; for_of rest body
  end.

Definition updatePRLabels (owner repo slackWebhookUrl : string) : M unit :=
  data <- pulls_list owner repo ;;
  for_of data (update_one owner repo slackWebhookUrl).

(** *** addDdayLabel *)

Definition addDdayLabel (owner repo : string) (prNumber : Z)
    (slackWebhookUrl : string) : M unit :=
  issues_addLabels owner repo prNumber ["D-3"] ;;
  pr <- pulls_get owner repo prNumber ;;
  sendSlackNotification slackWebhookUrl (summary pr) "D-3".

(** *** run *)

(** What the runner hands to the action: the results of
    [core.getInput(name, { required: true })] and of the [context.repo]
    getter, the event name and the number of [context.payload.pull_request]
    when the payload has one. *)
Record Runner : Type := {
  getInput : string -> completion string;
  eventName : string;
  context_repo : completion (string * string);
  payload_pull_request : option Z
}.

Definition lift {A : Type} (c : completion A) : M A := fun w => (c, w).

(** [context.payload.pull_request!.number] *)
Definition pull_request_number (r : Runner) : M Z :=
  match payload_pull_request r with
  | Some n => ret n
  | None => throw (Error "Cannot read properties of undefined (reading 'number')")
  end.

(** Lines 32-34: [if (error instanceof Error) core.setFailed(error.message)] *)
Definition on_error (error : thrown) : M unit :=
  match error with
  | Error message => setFailed message
  | NotAnError => ret tt
  end.

(** Line 13, [github.getOctokit(token)]: it builds the client whose requests
    the world answers and sends nothing itself; it throws when the token is
    empty, as the input is when it is given blank. *)
Definition getOctokit (token : string) : M unit :=
  match token with
  | EmptyString => throw (Error "Parameter token or opts.auth is required")
  | String _ _ => ret tt
  end.

(** Lines 7-35. *)
Definition run (r : Runner) : M unit :=
  try_catch
    (token <- lift (getInput r "github-token") ;;
     slackWebhookUrl <- lift (getInput r "slack-webhook-url") ;;
     getOctokit token ;;
     '(owner, repo) <- lift (context_repo r) ;;
     if String.eqb (eventName r) "schedule"
        || String.eqb (eventName r) "workflow_dispatch"
     then updatePRLabels owner repo slackWebhookUrl
     else if String.eqb (eventName r) "pull_request"
     then prNumber <- pull_request_number r ;;
          addDdayLabel owner repo prNumber slackWebhookUrl
     else ret tt)
    on_error.

(* ================================================================== *)
(** ** What the statements speak about *)
(* ================================================================== *)

(** The events of [m] in [w]: what it appends to the trace. *)
Definition events_of {A : Type} (m : M A) (w : world) : list event :=
  skipn (length (trace w)) (trace (snd (m w))).

(** The requests among some events, in order. *)
Definition requests_of (evs : list event) : list call :=
  flat_map (fun e => match e with Call c => [c] | _ => [] end) evs.

(** Whether the next request reaches the tracker and finds pull request [n]. *)
Definition answered (w : world) (n : Z) : bool :=
  match failures w (requests w) with
  | Some _ => false
  | None => existsb (has_number n) (pulls w)
  end.

(** The pull request the tracker holds under number [n]. *)
Definition tracked (w : world) (n : Z) : option PullRequest :=
  find (has_number n) (pulls w).

(** The name of the current D-label, as [currentLabel?.name]. *)
Definition dday (pr : PullRequest) : option string :=
  option_map name (currentLabel pr).

Definition the_write (owner repo : string) (pr : PullRequest) : call :=
  IssuesSetLabels owner repo (number pr) (written_labels pr).

Definition the_post (slackWebhookUrl : string) (pr : PullRequest) : call :=
  AxiosPost slackWebhookUrl (notification (summary pr) (newLabel pr)).

(** No label of [ls] starts with [D-]. *)
Definition no_dday (ls : list Label) : Prop :=
  Forall (fun l => is_dday (name l) = false) ls.

(** [l] is the first label of [ls] that starts with [D-]. *)
Definition first_dday (ls : list Label) (l : Label) : Prop :=
  exists before after,
    ls = (before ++ l :: after)%list /\ no_dday before /\ is_dday (name l) = true.

(** The computed label differs from the current D-label, or there is none. *)
Definition label_differs (pr : PullRequest) : Prop :=
  dday pr <> Some (newLabel pr).

(** The write of [pr] fails with [e], or it is answered and the post fails
    with [e]. *)
Definition write_or_post_fails (pr : PullRequest) (w : world) (e : thrown) : Prop :=
  failures w (requests w) = Some e \/
  (answered w (number pr) = true /\ failures w (S (requests w)) = Some e).

(** [m] only appends to the trace, and only events that satisfy [P]. *)
Definition emits {A : Type} (P : event -> Prop) (m : M A) : Prop :=
  forall w, exists evs,
    trace (snd (m w)) = (trace w ++ evs)%list /\ Forall P evs.

(** The batch sends no request but the list, the writes and the posts. *)
Definition of_batch (e : event) : Prop :=
  match e with
  | Call (IssuesAddLabels _ _ _ _) | Call (PullsGet _ _ _) => False
  | _ => True
  end.

(** The initializer sends neither a list nor a write. *)
Definition of_initializer (e : event) : Prop :=
  match e with
  | Call (PullsList _ _ _) | Call (IssuesSetLabels _ _ _ _) => False
  | _ => True
  end.

(** The notifications, and the label-replace writes, among the requests. *)
Definition is_post (c : call) : bool :=
  match c with
  | AxiosPost _ _ => true
  | _ => false
  end.

Definition is_write (c : call) : bool :=
  match c with
  | IssuesSetLabels _ _ _ _ => true
  | _ => false
  end.

(** Anything but a report of failure. *)
Definition no_report (e : event) : Prop :=
  match e with
  | SetFailed _ => False
  | _ => True
  end.

(** What the [catch] block of [run] adds for a thrown value. *)
Definition report_of (e : thrown) : list event :=
  match e with
  | Error message => [SetFailed message]
  | NotAnError => []
  end.

(** Reading the configuration throws [e]: the token, or else the webhook
    address, or else the client for an empty token, or else the repository
    of the context. *)
Definition config_fails (r : Runner) (e : thrown) : Prop :=
  getInput r "github-token" = Throw e \/
  (exists token, getInput r "github-token" = Normal token /\
     (getInput r "slack-webhook-url" = Throw e \/
      (exists url, getInput r "slack-webhook-url" = Normal url /\
         ((token = EmptyString /\
           e = Error "Parameter token or opts.auth is required") \/
          (token <> EmptyString /\ context_repo r = Throw e))))).

(** The network answers every request. *)
Definition working (w : world) : Prop := forall k, failures w k = None.

(** The first page of open pull requests, as the list request returns it. *)
Definition page (w : world) : list PullRequest :=
  firstn per_page (filter is_open (pulls w)).

(** The world once the list request has been sent. *)
Definition listed (owner repo : string) (w : world) : world :=
  {| pulls := pulls w; failures := failures w; requests := S (requests w);
     trace := (trace w ++ [Call (PullsList owner repo Open)])%list |}.

(** The requests of the loop body for [pr] when the network works. *)
Definition requests_for (owner repo slackWebhookUrl : string)
    (pr : PullRequest) : list call :=
  if changed pr
  then [the_write owner repo pr; the_post slackWebhookUrl pr]
  else [].

(** The pull request as the tracker holds it after the loop body, the write
    answered. *)
Definition relabelled (pr : PullRequest) : PullRequest :=
  if changed pr then replace_labels (written_labels pr) pr else pr.

(** One more pass of the loop body over pull request [n], read from the
    tracker as a later run would list it. *)
Definition rerun (owner repo slackWebhookUrl : string) (n : Z) (w : world)
    : world :=
  match tracked w n with
  | Some pr => snd (update_one owner repo slackWebhookUrl pr w)
  | None => w
  end.

(** The tracker's pull requests once [D-3] was added to number [n]. *)
Definition labelled (n : Z) (ps : list PullRequest) : list PullRequest :=
  map (fun p => if has_number n p then add_labels ["D-3"] p else p) ps.

(** [t] is empty or starts with something else than a decimal digit. *)
Definition not_a_digit (t : string) : Prop :=
  match t with
  | EmptyString => True
  | String c _ => Js.digit_value 10 c = None
  end.

(** The names of the labels of [pr] that do not start with [D-]. *)
Definition other_labels (pr : PullRequest) : list string :=
  map name (filter (fun l => negb (is_dday (name l))) (labels pr)).

(** The labels of [pr] that start with [D-]. *)
Definition dday_labels (pr : PullRequest) : list Label :=
  filter (fun l => is_dday (name l)) (labels pr).

(* ================================================================== *)
(** ** Worlds to run the action in *)
(* ================================================================== *)

Definition lbl (n : string) : Label := {| name := n |}.

Definition pull (n : Z) (ls : list string) : PullRequest :=
  {| number := n; title := "Fix"; html_url := "https://example.test/pr";
     user := Some {| login := "octocat" |}; labels := map lbl ls; state := Open |}.

Definition never : nat -> option thrown := fun _ => None.

Definition start (ps : list PullRequest) (f : nat -> option thrown) : world :=
  {| pulls := ps; failures := f; requests := 0; trace := [] |}.

Definition fails_at (k : nat) (e : thrown) : nat -> option thrown :=
  fun n => if Nat.eqb n k then Some e else None.

Definition runner (event : string) (payload : option Z) : Runner :=
  {| getInput := fun name => Normal ("<" ++ name ++ ">");
     eventName := event;
     context_repo := Normal ("minai621", "pr-dday-labeler");
     payload_pull_request := payload |}.

(* ================================================================== *)
(** ** Facts about the runtime fragment *)
(* ================================================================== *)

Module JsFacts.
Import Js.

Ltac digit_cases d :=
  let H := fresh in
  assert (H : d = 0 \/ d = 1 \/ d = 2 \/ d = 3 \/ d = 4 \/ d = 5 \/ d = 6
              \/ d = 7 \/ d = 8 \/ d = 9) by lia;
  repeat (destruct H as [H | H]); subst d.

Lemma digit_value_digit_char (d : Z) :
  0 <= d < 10 -> digit_value 10 (digit_char d) = Some d.
Proof. intros Hd. digit_cases d; reflexivity. Qed.

Lemma digit_char_plain (d : Z) :
  0 <= d < 10 ->
  is_white_space (digit_char d) = false /\
  Ascii.eqb (digit_char d) "-" = false /\
  Ascii.eqb (digit_char d) "+" = false /\
  is_x (digit_char d) = false.
Proof. intros Hd. digit_cases d; repeat split; reflexivity. Qed.

Lemma decimal_loop_step (fuel : nat) (n : Z) (rest : string) :
  decimal_loop (S fuel) n rest
  = if n <? 10 then String (digit_char (n mod 10)) rest
    else decimal_loop fuel (n / 10) (String (digit_char (n mod 10)) rest).
Proof. reflexivity. Qed.

(** Scanning the digits that [decimal_loop] writes reads the number back. *)
Lemma scan_decimal_loop (fuel : nat) :
  forall n rest, 0 <= n < 2 ^ Z.of_nat (S fuel) ->
  exists k, 0 <= k /\ forall acc seen,
    scan_digits 10 (decimal_loop (S fuel) n rest) acc seen
    = scan_digits 10 rest (acc * 10 ^ k + n) true.
Proof.
  induction fuel as [| fuel IH]; intros n rest Hn; rewrite decimal_loop_step.
  - change (2 ^ Z.of_nat 1) with 2 in Hn.
    destruct (Z.ltb_spec n 10) as [_ | Hge]; [| lia].
    exists 1. split; [lia |]. intros acc seen. simpl scan_digits.
    rewrite Z.mod_small by lia.
    rewrite digit_value_digit_char by lia. f_equal; lia.
  - destruct (Z.ltb_spec n 10) as [Hlt | Hge].
    + exists 1. split; [lia |]. intros acc seen. simpl scan_digits.
      rewrite Z.mod_small by lia.
      rewrite digit_value_digit_char by lia. f_equal; lia.
    + assert (Hdiv : 0 <= n / 10 < 2 ^ Z.of_nat (S fuel)).
      { split; [apply Z.div_pos; lia |].
        apply Z.div_lt_upper_bound; [lia |].
        rewrite (Nat2Z.inj_succ (S fuel)), Z.pow_succ_r in Hn by lia. lia. }
      destruct (IH (n / 10) (String (digit_char (n mod 10)) rest) Hdiv)
        as (k & Hk & Hscan).
      exists (k + 1). split; [lia |]. intros acc seen.
      rewrite Hscan. simpl scan_digits.
      rewrite digit_value_digit_char by (apply Z.mod_pos_bound; lia).
      f_equal. rewrite Z.pow_add_r by lia.
      pose proof (Z.div_mod n 10 ltac:(lia)). change (10 ^ 1) with 10. lia.
Qed.

(** The first two characters of what [decimal_loop] writes are digits. *)
Lemma decimal_loop_head (fuel : nat) :
  forall n rest, 0 <= n ->
  exists d r, 0 <= d < 10 /\
    decimal_loop (S fuel) n rest = String (digit_char d) r /\
    (r = rest \/ exists d' r', 0 <= d' < 10 /\ r = String (digit_char d') r').
Proof.
  induction fuel as [| fuel IH]; intros n rest Hn; rewrite decimal_loop_step.
  - exists (n mod 10).
    assert (0 <= n mod 10 < 10) by (apply Z.mod_pos_bound; lia).
    destruct (n <? 10); simpl; eauto.
  - assert (Hm : 0 <= n mod 10 < 10) by (apply Z.mod_pos_bound; lia).
    destruct (n <? 10); [exists (n mod 10); eauto |].
    destruct (IH (n / 10) (String (digit_char (n mod 10)) rest))
      as (d & r & Hd & Heq & Hr); [apply Z.div_pos; lia |].
    exists d, r. split; [assumption |]. split; [assumption |].
    right. destruct Hr as [-> | Hr]; eauto.
Qed.

Lemma decimal_fuel (n : Z) :
  0 <= n -> 0 <= n < 2 ^ Z.of_nat (S (Z.to_nat (Z.log2 n))).
Proof.
  intros Hn. split; [assumption |].
  rewrite Nat2Z.inj_succ, Z2Nat.id by apply Z.log2_nonneg.
  destruct (Z.eq_dec n 0) as [-> | Hne]; [reflexivity |].
  apply Z.log2_spec. lia.
Qed.

Lemma scan_decimal (n : Z) :
  0 <= n -> scan_digits 10 (decimal n) 0 false = Some n.
Proof.
  intros Hn. unfold decimal.
  destruct (scan_decimal_loop _ n EmptyString (decimal_fuel n Hn))
    as (k & _ & Hscan).
  rewrite Hscan. reflexivity.
Qed.

(** [parseInt] reads a decimal numeral back, up to the rounding to a double. *)
Lemma parseInt_decimal (n : Z) :
  0 <= n -> parseInt (decimal n) = of_integer false n.
Proof.
  intros Hn. pose proof (scan_decimal n Hn) as Hscan. unfold decimal in *.
  destruct (decimal_loop_head (Z.to_nat (Z.log2 n)) n EmptyString Hn)
    as (d & r & Hd & Heq & Hr).
  rewrite Heq in *. unfold parseInt. simpl trim_start.
  destruct (digit_char_plain d Hd) as (Hws & Hminus & Hplus & _).
  rewrite Hws, Hminus, Hplus.
  destruct Hr as [-> | (d' & r' & Hd' & ->)].
  - rewrite Hscan. reflexivity.
  - destruct (digit_char_plain d' Hd') as (_ & _ & _ & Hx).
    rewrite Hx, andb_false_r, Hscan. reflexivity.
Qed.

Lemma gt_zero_of_negative (m : Z) : gt_zero (of_integer true m) = false.
Proof. unfold of_integer. destruct (round_double m); reflexivity. Qed.

(** A numeral with a minus sign is never read as a positive number. *)
Lemma parseInt_minus (s : string) : gt_zero (parseInt (String "-" s)) = false.
Proof.
  unfold parseInt. simpl trim_start.
  change (is_white_space "-") with false. cbv iota.
  change (Ascii.eqb "-" "-") with true. cbv iota.
  match goal with
  | |- context [match ?X with pair _ _ => _ end] => destruct X as [R s3]
  end.
  destruct (scan_digits R s3 0 false); [apply gt_zero_of_negative | reflexivity].
Qed.

(** *** Rounding *)

Lemma round_double_small (m : Z) : m < 2 ^ 53 -> round_double m = Some m.
Proof.
  intros Hm. unfold round_double.
  destruct (Z.ltb_spec m (2 ^ 53)); [reflexivity | lia].
Qed.

Lemma round_double_safe (m : Z) : m <= 2 ^ 53 -> round_double m = Some m.
Proof.
  intros Hm. destruct (Z.eq_dec m (2 ^ 53)) as [-> | Hne].
  - reflexivity.
  - apply round_double_small. lia.
Qed.

(** Beyond [2 ^ 53 + 1] a rounded integer stays beyond it. *)
Lemma round_double_large (m v : Z) :
  2 ^ 53 + 2 <= m -> round_double m = Some v -> 2 ^ 53 + 2 <= v.
Proof.
  intros Hm. unfold round_double.
  destruct (Z.ltb_spec m (2 ^ 53)) as [Hlt | _]; [lia |].
  set (e := Z.log2 m - 52).
  set (q := Z.shiftr m e).
  match goal with
  | |- context [if ?c then q + 1 else q] =>
      set (q' := if c then q + 1 else q);
      assert (Hq' : q <= q') by (unfold q'; destruct c; lia)
  end.
  destruct (Z.shiftl q' e <? 2 ^ 1024); [| discriminate].
  intros [= <-].
  assert (Hlog : 53 <= Z.log2 m).
  { apply Z.log2_le_pow2; lia. }
  assert (He : 1 <= e) by (unfold e; lia).
  pose proof (Z.log2_spec m ltac:(lia)) as [Hlo Hhi].
  assert (Hq : q = m / 2 ^ e) by (unfold q; apply Z.shiftr_div_pow2; lia).
  rewrite Z.shiftl_mul_pow2 by lia.
  assert (Hpow : 0 < 2 ^ e) by (apply Z.pow_pos_nonneg; lia).
  assert (Hq52 : 2 ^ 52 <= q).
  { rewrite Hq. apply Z.div_le_lower_bound; [lia |].
    rewrite <- Z.pow_add_r by lia.
    replace (e + 52) with (Z.log2 m) by (unfold e; lia). lia. }
  destruct (Z.eq_dec e 1) as [He1 | Hne].
  - rewrite He1 in *. change (2 ^ 1) with 2 in *.
    assert (2 ^ 52 + 1 <= q).
    { rewrite Hq. apply Z.div_le_lower_bound; lia. }
    lia.
  - assert (H4 : 2 ^ 2 <= 2 ^ e) by (apply Z.pow_le_mono_r; lia).
    change (2 ^ 2) with 4 in H4.
    change (2 ^ 53) with (2 * 2 ^ 52) in *. nia.
Qed.

Lemma of_integer_safe (negative : bool) (m : Z) :
  m <= 2 ^ 53 -> of_integer negative m = Finite negative m.
Proof. intros Hm. unfold of_integer. rewrite round_double_safe; trivial. Qed.

(** *** Printing *)

Lemma rounds_to_below (lo x : Z) :
  lo <= x <= 2 ^ 53 -> rounds_to lo x = true -> lo = x.
Proof.
  intros Hx. unfold rounds_to. rewrite round_double_safe by lia.
  apply Z.eqb_eq.
Qed.

Lemma rounds_to_above (hi x : Z) :
  x <= 2 ^ 53 -> x < hi -> hi mod 10 = 0 -> rounds_to hi x = false.
Proof.
  intros Hx Hhi Hmod. unfold rounds_to.
  destruct (Z_le_gt_dec hi (2 ^ 53)) as [Hle | Hgt].
  - rewrite round_double_safe by lia. apply Z.eqb_neq. lia.
  - destruct (round_double hi) as [v |] eqn:Hround; [| reflexivity].
    apply Z.eqb_neq. intros ->.
    assert (Hne : hi <> 2 ^ 53 + 1).
    { intros ->. discriminate Hmod. }
    pose proof (round_double_large hi x ltac:(lia) Hround). lia.
Qed.

Lemma candidate_safe (x : Z) (j : nat) (v : Z) :
  0 < x <= 2 ^ 53 -> candidate x (10 ^ Z.of_nat (S j)) = Some v -> v = x.
Proof.
  intros Hx. unfold candidate.
  set (scale := 10 ^ Z.of_nat (S j)).
  assert (Hscale : 0 < scale) by (apply Z.pow_pos_nonneg; lia).
  assert (Hten : scale mod 10 = 0).
  { unfold scale. rewrite Nat2Z.inj_succ, Z.pow_succ_r by lia.
    rewrite Z.mul_comm. apply Z.mod_mul. lia. }
  pose proof (Z.mul_div_le x scale Hscale) as Hlo.
  pose proof (Z.mod_pos_bound x scale Hscale) as Hmod.
  pose proof (Z.div_mod x scale ltac:(lia)) as Hdm.
  assert (Hhi : rounds_to (x / scale * scale + scale) x = false).
  { apply rounds_to_above; [lia | lia |].
    replace (x / scale * scale + scale) with ((x / scale + 1) * scale) by ring.
    apply Z.mod_divide; [lia |].
    apply Z.divide_mul_r. apply Z.mod_divide; [lia | assumption]. }
  rewrite Hhi.
  destruct (rounds_to (x / scale * scale) x) eqn:Hr; [| discriminate].
  intros [= <-]. apply rounds_to_below in Hr; [assumption | lia].
Qed.

Lemma shortest_safe (x : Z) (j : nat) : 0 < x <= 2 ^ 53 -> shortest x j = x.
Proof.
  intros Hx. induction j as [| j IH]; [reflexivity |].
  change (shortest x (S j))
    with (match candidate x (10 ^ Z.of_nat (S j)) with
          | Some v => v
          | None => shortest x j
          end).
  destruct (candidate x (10 ^ Z.of_nat (S j))) as [v |] eqn:Hc;
    [eapply candidate_safe; eassumption | assumption].
Qed.

(** Up to [2 ^ 53] a number prints as its decimal numeral. *)
Lemma number_to_string_safe (m : Z) :
  0 <= m <= 2 ^ 53 -> number_to_string (Finite false m) = decimal m.
Proof.
  intros Hm. unfold number_to_string.
  destruct (Z.eqb_spec m 0) as [-> | Hne]; [reflexivity |].
  unfold positive_to_string. rewrite shortest_safe by lia.
  destruct (Z.ltb_spec m (10 ^ 21)) as [_ | Hge]; [reflexivity |].
  exfalso. assert (2 ^ 53 < 10 ^ 21) by reflexivity. lia.
Qed.

End JsFacts.

(* ================================================================== *)
(** ** What a computation adds to the trace *)
(* ================================================================== *)

Lemma skipn_trace {A : Type} (l l' : list A) : skipn (length l) (l ++ l')%list = l'.
Proof. induction l as [| a l IH]; [reflexivity | exact IH]. Qed.

Ltac trace_tail :=
  unfold events_of; cbn; repeat rewrite <- app_assoc; rewrite skipn_trace.

Section UpdateOne.

Variables owner repo slackWebhookUrl : string.

(** The requests of the loop body: the write when the label changes, and the
    post after it when the write was answered. *)
Lemma update_one_requests (pr : PullRequest) (w : world) :
  requests_of (events_of (update_one owner repo slackWebhookUrl pr) w)
  = if changed pr
    then the_write owner repo pr ::
         (if answered w (number pr) then [the_post slackWebhookUrl pr] else [])
    else [].
Proof.
  unfold update_one, answered, the_write, the_post.
  destruct w as [ps fl rq tr].
  destruct (currentLabel pr) as [current |], (changed pr);
    unfold bind, console_log, issues_setLabels, sendSlackNotification,
      axios_post, request, on_pull; cbn.
  all: try (trace_tail; reflexivity).
  all: destruct (fl rq) as [e |]; [trace_tail; reflexivity |].
  all: destruct (existsb (has_number (number pr)) ps); cbn.
  all: try (trace_tail; reflexivity).
  all: destruct (fl (S rq)); trace_tail; reflexivity.
Qed.

(** How the loop body completes. *)
Lemma update_one_completion (pr : PullRequest) (w : world) :
  fst (update_one owner repo slackWebhookUrl pr w)
  = if changed pr then
      match failures w (requests w) with
      | Some e => Throw e
      | None =>
          if existsb (has_number (number pr)) (pulls w) then
            match failures w (S (requests w)) with
            | Some e => Throw e
            | None => Normal tt
            end
          else not_found
      end
    else Normal tt.
Proof.
  unfold update_one. destruct w as [ps fl rq tr].
  destruct (currentLabel pr) as [current |], (changed pr);
    unfold bind, console_log, issues_setLabels, sendSlackNotification,
      axios_post, request, on_pull; cbn; try reflexivity.
  all: destruct (fl rq) as [e |]; [reflexivity |].
  all: destruct (existsb (has_number (number pr)) ps); cbn; try reflexivity.
  all: destruct (fl (S rq)); reflexivity.
Qed.

(** What the loop body leaves in the tracker. *)
Lemma update_one_pulls (pr : PullRequest) (w : world) :
  pulls (snd (update_one owner repo slackWebhookUrl pr w))
  = if changed pr && answered w (number pr)
    then map (fun p => if has_number (number pr) p
                       then replace_labels (written_labels pr) p else p)
           (pulls w)
    else pulls w.
Proof.
  unfold update_one, answered. destruct w as [ps fl rq tr].
  destruct (currentLabel pr) as [current |], (changed pr);
    unfold bind, console_log, issues_setLabels, sendSlackNotification,
      axios_post, request, on_pull; cbn; try reflexivity.
  all: destruct (fl rq) as [e |]; [reflexivity |].
  all: destruct (existsb (has_number (number pr)) ps); cbn; try reflexivity.
  all: destruct (fl (S rq)); reflexivity.
Qed.

End UpdateOne.

(* ================================================================== *)
(** ** The label transition *)
(* ================================================================== *)

Lemma currentLabel_none (pr : PullRequest) :
  no_dday (labels pr) -> currentLabel pr = None.
Proof.
  unfold currentLabel, no_dday. induction 1 as [| l ls Hl _ IH]; cbn [find].
  - reflexivity.
  - rewrite Hl. exact IH.
Qed.

Lemma currentLabel_first (pr : PullRequest) (l : Label) :
  first_dday (labels pr) l -> currentLabel pr = Some l.
Proof.
  unfold currentLabel. intros (before & after & -> & Hbefore & Hl).
  induction Hbefore as [| b bs Hb _ IH]; cbn [find app].
  - rewrite Hl. reflexivity.
  - rewrite Hb. exact IH.
Qed.

Lemma newLabel_is_dday (pr : PullRequest) : is_dday (newLabel pr) = true.
Proof.
  unfold newLabel. destruct (currentLabel pr) as [current |]; [| reflexivity].
  destruct (Js.gt_zero _); reflexivity.
Qed.

Lemma changed_differs (pr : PullRequest) :
  changed pr = true <-> label_differs pr.
Proof.
  unfold changed, label_differs, dday.
  destruct (currentLabel pr) as [current |]; cbn [option_map].
  - rewrite negb_true_iff, String.eqb_neq.
    split; intros H E; apply H; [injection E; auto | rewrite E; reflexivity].
  - split; [discriminate | reflexivity].
Qed.


Lemma int_to_string_nonneg (d : Z) : 0 <= d -> Js.int_to_string d = Js.decimal d.
Proof.
  intros Hd. unfold Js.int_to_string.
  destruct (Z.ltb_spec d 0); [lia | reflexivity].
Qed.

(** The label after [D-<d>], for a day count that a double holds exactly. *)
Lemma newLabel_decrement (pr : PullRequest) (d : Z) :
  1 <= d <= 2 ^ 53 ->
  currentLabel pr = Some (lbl ("D-" ++ Js.int_to_string d)) ->
  newLabel pr = "D-" ++ Js.int_to_string (d - 1).
Proof.
  intros Hd Hcur. unfold newLabel. rewrite Hcur.
  rewrite !int_to_string_nonneg by lia.
  change (Js.slice 2 (name (lbl ("D-" ++ Js.decimal d)))) with (Js.decimal d).
  rewrite JsFacts.parseInt_decimal, JsFacts.of_integer_safe by lia.
  cbn [Js.gt_zero Js.sub_one].
  destruct (Z.ltb_spec 0 d); [| lia].
  destruct (Z.eqb_spec d 0); [lia |].
  rewrite JsFacts.of_integer_safe, JsFacts.number_to_string_safe by lia.
  reflexivity.
Qed.

(** The label after [D-<d>] at the floor and below it. *)
Lemma newLabel_floor (pr : PullRequest) (d : Z) :
  d <= 0 ->
  currentLabel pr = Some (lbl ("D-" ++ Js.int_to_string d)) ->
  newLabel pr = "D-0".
Proof.
  intros Hd Hcur. unfold newLabel. rewrite Hcur.
  destruct (Z.eq_dec d 0) as [-> | Hne]; [reflexivity |].
  unfold Js.int_to_string. destruct (Z.ltb_spec d 0); [| lia].
  change (Js.slice 2 (name (lbl ("D-" ++ String "-" (Js.decimal (- d))))))
    with (String "-" (Js.decimal (- d))).
  rewrite JsFacts.parseInt_minus. reflexivity.
Qed.

(** C1, as amended. The next label is a function of the labels read: [D-3]
    when no label starts with [D-]; [D-<d-1>] when the first such label is
    [D-<d>] with [1 <= d <= 2 ^ 53], the integers a double counts exactly;
    [D-0] when it is [D-<d>] with [d <= 0]. *)
Theorem newLabel_transition (pr : PullRequest) :
  (no_dday (labels pr) -> newLabel pr = "D-3") /\
  (forall d, 1 <= d <= 2 ^ 53 ->
     first_dday (labels pr) (lbl ("D-" ++ Js.int_to_string d)) ->
     newLabel pr = "D-" ++ Js.int_to_string (d - 1)) /\
  (forall d, d <= 0 ->
     first_dday (labels pr) (lbl ("D-" ++ Js.int_to_string d)) ->
     newLabel pr = "D-0").
Proof.
  repeat split.
  - intros Hnone. unfold newLabel. rewrite (currentLabel_none pr Hnone).
    reflexivity.
  - intros d Hd Hfirst. apply newLabel_decrement; [assumption |].
    apply currentLabel_first, Hfirst.
  - intros d Hd Hfirst. apply (newLabel_floor pr d); [assumption |].
    apply currentLabel_first, Hfirst.
Qed.

Lemma first_dday_head (l : Label) (ls : list Label) :
  is_dday (name l) = true -> first_dday (l :: ls) l.
Proof. intros Hl. exists [], ls. repeat split; [constructor | assumption]. Qed.

Lemma first_dday_next (a l : Label) (ls : list Label) :
  is_dday (name a) = false -> first_dday ls l -> first_dday (a :: ls) l.
Proof.
  intros Ha (before & after & -> & Hbefore & Hl).
  exists (a :: before), after. repeat split; [constructor |]; assumption.
Qed.

(** The three cases of the transition, on the labels of the scenarios. *)
Lemma newLabel_transition_witness :
  newLabel (pull 9 ["enhancement"]) = "D-3" /\
  newLabel (pull 7 ["bug"; "D-2"; "D-0"]) = "D-1" /\
  newLabel (pull 8 ["D-0"; "bug"]) = "D-0".
Proof.
  split; [| split].
  - apply (proj1 (newLabel_transition (pull 9 ["enhancement"]))).
    repeat constructor.
  - apply (proj1 (proj2 (newLabel_transition (pull 7 ["bug"; "D-2"; "D-0"]))) 2).
    + vm_compute. split; discriminate.
    + apply first_dday_next; [reflexivity |].
      apply first_dday_head. reflexivity.
  - apply (proj2 (proj2 (newLabel_transition (pull 8 ["D-0"; "bug"]))) 0).
    + lia.
    + apply first_dday_head. reflexivity.
Defined.

(** C1, as first stated, fails where doubles stop counting by one: the label
    after [D-9007199254740993] is [D-9007199254740991], not
    [D-9007199254740992], since [parseInt] rounds [2 ^ 53 + 1] to [2 ^ 53]. *)
Lemma newLabel_beyond_two_53 :
  let d := 9007199254740993 in
  let pr := pull 1 ["bug"; "D-9007199254740993"] in
  1 <= d /\
  first_dday (labels pr) (lbl ("D-" ++ Js.int_to_string d)) /\
  newLabel pr = "D-9007199254740991" /\
  newLabel pr <> "D-" ++ Js.int_to_string (d - 1).
Proof.
  cbv zeta. split; [lia |]. split; [| split].
  - apply first_dday_next; [reflexivity |].
    apply first_dday_head. reflexivity.
  - vm_compute. reflexivity.
  - vm_compute. discriminate.
Qed.

(* ================================================================== *)
(** ** The loop body: writes and notifications *)
(* ================================================================== *)

(** The loop body sends the write exactly when the computed label differs
    from the current D-label (or there was none), and the notification after
    it once the write is answered; when the label is the same it sends no
    request at all. *)
Lemma update_one_notifies_iff_changed
    (owner repo slackWebhookUrl : string) (pr : PullRequest) (w : world) :
  let sent := requests_of (events_of (update_one owner repo slackWebhookUrl pr) w) in
  (In (the_write owner repo pr) sent <-> label_differs pr) /\
  (In (the_post slackWebhookUrl pr) sent
   <-> label_differs pr /\ answered w (number pr) = true) /\
  (~ label_differs pr -> sent = []) /\
  (answered w (number pr) = true ->
     (In (the_post slackWebhookUrl pr) sent <-> label_differs pr) /\
     (label_differs pr ->
        sent = [the_write owner repo pr; the_post slackWebhookUrl pr])).
Proof.
  intros sent. subst sent. rewrite update_one_requests.
  pose proof (changed_differs pr) as Hiff.
  assert (Hpost : the_post slackWebhookUrl pr <> the_write owner repo pr)
    by discriminate.
  destruct (changed pr).
  - assert (Hd : label_differs pr) by (apply Hiff; reflexivity).
    destruct (answered w (number pr)); cbn [In];
      repeat split; intros; try assumption; try contradiction;
      try discriminate; auto; try tauto.
    all: match goal with
         | H : _ \/ _ |- _ => destruct H as [H | []]; congruence
         | H : _ /\ _ |- _ => destruct H; discriminate
         end.
  - assert (Hd : ~ label_differs pr).
    { intros H. apply Hiff in H. discriminate. }
    cbn [In]. repeat split; intros; try contradiction; try reflexivity; tauto.
Qed.

(** Every label-replace write of the loop body passes [written_labels]. *)
Lemma update_one_write (owner repo slackWebhookUrl : string)
    (pr : PullRequest) (w : world) (o r : string) (n : Z) (ls : list string) :
  In (IssuesSetLabels o r n ls)
    (requests_of (events_of (update_one owner repo slackWebhookUrl pr) w)) ->
  o = owner /\ r = repo /\ n = number pr /\ ls = written_labels pr.
Proof.
  rewrite update_one_requests. unfold the_write, the_post.
  destruct (changed pr); [| contradiction].
  destruct (answered w (number pr)); cbn [In];
    intros [H | H]; try contradiction; try (destruct H as [H | []]);
    try discriminate H; injection H; intros; subst; auto.
Qed.

Lemma filter_non_dday_written (pr : PullRequest) :
  filter (fun n => negb (is_dday n)) (written_labels pr)
  = map name (filter (fun l => negb (is_dday (name l))) (labels pr)).
Proof.
  unfold written_labels. cbn [filter]. rewrite newLabel_is_dday. cbn [negb].
  induction (labels pr) as [| l ls IH]; [reflexivity |].
  cbn [filter]. destruct (is_dday (name l)) eqn:Hl; cbn [negb map filter].
  - exact IH.
  - rewrite Hl. cbn [negb]. f_equal. exact IH.
Qed.

Lemma filter_dday_written (pr : PullRequest) :
  filter is_dday (written_labels pr) = [newLabel pr].
Proof.
  unfold written_labels. cbn [filter]. rewrite newLabel_is_dday. f_equal.
  induction (labels pr) as [| l ls IH]; [reflexivity |].
  cbn [filter]. destruct (is_dday (name l)) eqn:Hl; cbn [negb map filter].
  - exact IH.
  - rewrite Hl. exact IH.
Qed.

(** C3. In every label-replace write of the loop body, the labels that do not
    start with [D-] are those read on the pull request: the same list, hence
    the same set. *)
Theorem write_preserves_other_labels
    (owner repo slackWebhookUrl : string) (pr : PullRequest) (w : world)
    (o r : string) (n : Z) (ls : list string) :
  In (IssuesSetLabels o r n ls)
    (requests_of (events_of (update_one owner repo slackWebhookUrl pr) w)) ->
  filter (fun x => negb (is_dday x)) ls
  = map name (filter (fun l => negb (is_dday (name l))) (labels pr)) /\
  (forall x, is_dday x = false -> In x ls <-> In x (map name (labels pr))).
Proof.
  intros Hin. apply update_one_write in Hin as (_ & _ & _ & ->).
  pose proof (filter_non_dday_written pr) as Hfilter.
  split; [exact Hfilter |].
  intros x Hx.
  assert (Hl : In x (written_labels pr)
               <-> In x (filter (fun x => negb (is_dday x)) (written_labels pr))).
  { rewrite filter_In, Hx. cbn [negb]. tauto. }
  rewrite Hl, Hfilter, !in_map_iff.
  split; intros (l & Hname & Hl').
  - exists l. split; [assumption |]. apply filter_In in Hl'. apply Hl'.
  - exists l. split; [assumption |]. apply filter_In. split; [assumption |].
    rewrite Hname, Hx. reflexivity.
Qed.

Lemma write_preserves_other_labels_witness :
  let ls := ["D-1"; "bug"; "help wanted"] in
  filter (fun x => negb (is_dday x)) ls = ["bug"; "help wanted"].
Proof.
  cbv zeta.
  apply (write_preserves_other_labels "o" "r" "hook"
           (pull 7 ["bug"; "D-2"; "help wanted"; "D-9"])
           (start [pull 7 ["bug"; "D-2"; "help wanted"; "D-9"]] never)
           "o" "r" 7 ["D-1"; "bug"; "help wanted"]).
  vm_compute. left. reflexivity.
Defined.

(** C9. Every label set written by the loop body holds exactly one label that
    starts with [D-], the computed one, however many the pull request had. *)
Theorem write_has_one_dday
    (owner repo slackWebhookUrl : string) (pr : PullRequest) (w : world)
    (o r : string) (n : Z) (ls : list string) :
  In (IssuesSetLabels o r n ls)
    (requests_of (events_of (update_one owner repo slackWebhookUrl pr) w)) ->
  filter is_dday ls = [newLabel pr].
Proof.
  intros Hin. apply update_one_write in Hin as (_ & _ & _ & ->).
  apply filter_dday_written.
Qed.

Lemma write_has_one_dday_witness :
  filter is_dday ["D-1"; "bug"; "help wanted"] = ["D-1"].
Proof.
  apply (write_has_one_dday "o" "r" "hook"
           (pull 7 ["bug"; "D-2"; "help wanted"; "D-9"])
           (start [pull 7 ["bug"; "D-2"; "help wanted"; "D-9"]] never)
           "o" "r" 7 ["D-1"; "bug"; "help wanted"]).
  vm_compute. left. reflexivity.
Defined.

(** When the text after [D-] of the current label is not read as a number by
    [parseInt], the computed label is [D-0], not [D-3]; it differs from the
    current label, so the loop body writes the labels with [D-0] and, the
    write answered, posts the notification. *)
Lemma malformed_label_becomes_due_today
    (owner repo slackWebhookUrl : string) (pr : PullRequest) (current : Label)
    (w : world) :
  currentLabel pr = Some current ->
  Js.parseInt (Js.slice 2 (name current)) = Js.NaN ->
  newLabel pr = "D-0" /\
  newLabel pr <> "D-3" /\
  label_differs pr /\
  requests_of (events_of (update_one owner repo slackWebhookUrl pr) w)
  = IssuesSetLabels owner repo (number pr)
      ("D-0" :: map name (filter (fun l => negb (is_dday (name l))) (labels pr)))
    :: (if answered w (number pr)
        then [AxiosPost slackWebhookUrl (notification (summary pr) "D-0")]
        else []).
Proof.
  intros Hcur Hnan.
  assert (Hnew : newLabel pr = "D-0").
  { unfold newLabel. rewrite Hcur, Hnan. reflexivity. }
  assert (Hdiff : label_differs pr).
  { unfold label_differs, dday. rewrite Hcur, Hnew. cbn [option_map].
    intros [= Hname]. rewrite Hname in Hnan. discriminate Hnan. }
  repeat split; try assumption.
  - rewrite Hnew. discriminate.
  - rewrite update_one_requests.
    rewrite (proj2 (changed_differs pr) Hdiff).
    unfold the_write, the_post, written_labels. rewrite Hnew. reflexivity.
Qed.

(* ================================================================== *)
(** ** The notification *)
(* ================================================================== *)



(* ================================================================== *)
(** ** Running the loop body again *)
(* ================================================================== *)

Lemma newLabel_by_dday (pr pr' : PullRequest) :
  dday pr = dday pr' -> newLabel pr = newLabel pr'.
Proof.
  unfold dday, newLabel.
  destruct (currentLabel pr) as [[n] |], (currentLabel pr') as [[n'] |];
    cbn [option_map name]; intros [=]; subst; reflexivity.
Qed.

(** The countdown, one step at a time. *)
Lemma newLabel_table (pr : PullRequest) :
  (dday pr = None -> newLabel pr = "D-3") /\
  (dday pr = Some "D-3" -> newLabel pr = "D-2") /\
  (dday pr = Some "D-2" -> newLabel pr = "D-1") /\
  (dday pr = Some "D-1" -> newLabel pr = "D-0") /\
  (dday pr = Some "D-0" -> newLabel pr = "D-0").
Proof.
  repeat split; intros H.
  - exact (newLabel_by_dday pr (pull 0 []) H).
  - exact (newLabel_by_dday pr (pull 0 ["D-3"]) H).
  - exact (newLabel_by_dday pr (pull 0 ["D-2"]) H).
  - exact (newLabel_by_dday pr (pull 0 ["D-1"]) H).
  - exact (newLabel_by_dday pr (pull 0 ["D-0"]) H).
Qed.

Lemma dday_replace_labels (pr p : PullRequest) :
  dday (replace_labels (written_labels pr) p) = Some (newLabel pr).
Proof.
  unfold dday, currentLabel, replace_labels, written_labels.
  cbn [labels with_labels map find name]. rewrite newLabel_is_dday. reflexivity.
Qed.

Lemma tracked_some_exists (w : world) (n : Z) (pr : PullRequest) :
  tracked w n = Some pr -> existsb (has_number n) (pulls w) = true.
Proof.
  unfold tracked. intros H. apply find_some in H. apply existsb_exists.
  exists pr. exact H.
Qed.

Lemma find_map_on_number (n : Z) (f : PullRequest -> PullRequest)
    (ps : list PullRequest) :
  (forall p, number (f p) = number p) ->
  find (has_number n) (map (fun p => if has_number n p then f p else p) ps)
  = option_map f (find (has_number n) ps).
Proof.
  intros Hf. induction ps as [| p ps IH]; [reflexivity |].
  cbn [map find]. destruct (has_number n p) eqn:Hp.
  - unfold has_number in *. rewrite Hf, Hp. reflexivity.
  - rewrite Hp. exact IH.
Qed.

(** A pull request at [D-0] is a fixed point of the loop body: no request is
    sent and the tracker keeps it as it is.  From every other state of the
    countdown (no D-label, [D-3], [D-2], [D-1]) the body writes and notifies,
    the tracker then holds the next label, which differs from the one before,
    and a second pass changes it again unless it has reached [D-0]. *)
Lemma due_today_is_the_fixed_point
    (owner repo slackWebhookUrl : string) (pr : PullRequest) (w : world) :
  tracked w (number pr) = Some pr ->
  failures w (requests w) = None ->
  let w' := snd (update_one owner repo slackWebhookUrl pr w) in
  let sent := requests_of (events_of (update_one owner repo slackWebhookUrl pr) w) in
  exists pr',
    tracked w' (number pr) = Some pr' /\
    (dday pr = Some "D-0" ->
       sent = [] /\ pulls w' = pulls w /\ pr' = pr /\ ~ label_differs pr') /\
    (dday pr = None \/ dday pr = Some "D-3" \/ dday pr = Some "D-2"
       \/ dday pr = Some "D-1" ->
       sent = [the_write owner repo pr; the_post slackWebhookUrl pr] /\
       dday pr' = Some (newLabel pr) /\
       dday pr' <> dday pr /\
       (label_differs pr' <-> dday pr' <> Some "D-0")).
Proof.
  intros Htracked Hfail w' sent. subst w' sent.
  assert (Hanswered : answered w (number pr) = true).
  { unfold answered. rewrite Hfail. eapply tracked_some_exists; eassumption. }
  rewrite update_one_requests. unfold tracked.
  rewrite update_one_pulls, Hanswered.
  destruct (newLabel_table pr) as (T3 & T2 & T1 & T0 & Tfix).
  destruct (changed pr) eqn:Hchanged; cbn [andb].
  - apply changed_differs in Hchanged.
    rewrite find_map_on_number by reflexivity.
    fold (tracked w (number pr)). rewrite Htracked. cbn [option_map].
    eexists. split; [reflexivity |]. split.
    + intros H0. exfalso. apply Hchanged. rewrite H0, (Tfix H0). reflexivity.
    + intros Hstate. split; [reflexivity |].
      pose proof (dday_replace_labels pr pr) as Hnext.
      split; [exact Hnext |]. split; [congruence |].
      set (pr' := replace_labels (written_labels pr) pr) in *.
      destruct (newLabel_table pr') as (T3' & T2' & T1' & T0' & Tfix').
      unfold label_differs. rewrite Hnext in *.
      destruct Hstate as [H | [H | [H | H]]];
        [rewrite (T3 H) in * | rewrite (T2 H) in * | rewrite (T1 H) in *
        | rewrite (T0 H) in *].
      * rewrite (T2' eq_refl). split; discriminate.
      * rewrite (T1' eq_refl). split; discriminate.
      * rewrite (T0' eq_refl). split; discriminate.
      * rewrite (Tfix' eq_refl). tauto.
  - fold (tracked w (number pr)). exists pr. split; [assumption |].
    assert (Hsame : ~ label_differs pr).
    { intros H. apply changed_differs in H. congruence. }
    split.
    + intros _. repeat split; try reflexivity. assumption.
    + intros Hstate. exfalso. apply Hsame. unfold label_differs.
      destruct Hstate as [H | [H | [H | H]]]; rewrite H;
        [| rewrite (T2 H) | rewrite (T1 H) | rewrite (T0 H)]; discriminate.
Qed.


(* ================================================================== *)
(** ** Computations and their events *)
(* ================================================================== *)

Section Emits.

Context {A B : Type} (P : event -> Prop).

Lemma emits_lift (c : completion A) : emits P (lift c).
Proof. intros w. exists []. cbn. rewrite app_nil_r. auto. Qed.

Lemma emits_ret (a : A) : emits P (ret a).
Proof. exact (emits_lift (Normal a)). Qed.

Lemma emits_throw (e : thrown) : emits P (@throw A e).
Proof. exact (emits_lift (Throw e)). Qed.

Lemma emits_bind (m : M A) (k : A -> M B) :
  emits P m -> (forall a, emits P (k a)) -> emits P (bind m k).
Proof.
  intros Hm Hk w. unfold bind.
  destruct (Hm w) as (evs & Htrace & Hall).
  destruct (m w) as [[a | e] w1]; cbn [snd] in *.
  - destruct (Hk a w1) as (evs' & Htrace' & Hall').
    exists (evs ++ evs')%list. rewrite Htrace', Htrace, app_assoc.
    split; [reflexivity | apply Forall_app; auto].
  - exists evs. auto.
Qed.

Lemma emits_request (c : call)
    (answer : list PullRequest -> completion A * list PullRequest) :
  P (Call c) -> emits P (request c answer).
Proof.
  intros Hc w. exists [Call c]. unfold request.
  destruct (failures w (requests w)); [| destruct (answer (pulls w))];
    cbn; auto.
Qed.

End Emits.

Lemma emits_console_log (P : event -> Prop) (line : string) :
  P (ConsoleLog line) -> emits P (console_log line).
Proof. intros Hl w. exists [ConsoleLog line]. cbn. auto. Qed.

Lemma emits_for_of {A : Type} (P : event -> Prop) (xs : list A)
    (body : A -> M unit) :
  (forall x, emits P (body x)) -> emits P (for_of xs body).
Proof.
  intros Hbody. induction xs as [| x xs IH]; cbn [for_of].
  - apply emits_ret.
  - apply emits_bind; auto.
Qed.

Lemma update_one_of_batch (owner repo slackWebhookUrl : string)
    (pr : PullRequest) :
  emits of_batch (update_one owner repo slackWebhookUrl pr).
Proof.
  unfold update_one. apply emits_bind.
  - destruct (currentLabel pr); apply emits_console_log; exact I.
  - intros _. destruct (changed pr).
    + apply emits_bind; [apply emits_console_log; exact I |].
      intros _. apply emits_bind; [apply emits_request; exact I |].
      intros _. apply emits_request. exact I.
    + apply emits_console_log. exact I.
Qed.

(** A computation that starts with a request starts its events with it. *)
Lemma request_first {A B : Type} (P : event -> Prop) (c : call)
    (answer : list PullRequest -> completion A * list PullRequest)
    (k : A -> M B) (w : world) :
  (forall a, emits P (k a)) ->
  exists evs,
    trace (snd (bind (request c answer) k w)) = (trace w ++ Call c :: evs)%list /\
    Forall P evs.
Proof.
  intros Hk. unfold bind, request.
  destruct (failures w (requests w)).
  - exists []. cbn. auto.
  - destruct (answer (pulls w)) as [[a | e] ps].
    + match goal with
      | |- context [k a ?w0] => destruct (Hk a w0) as (evs & Htrace & Hall)
      end.
      exists evs. rewrite Htrace. cbn [trace]. rewrite <- app_assoc. auto.
    + exists []. cbn. auto.
Qed.

(** The batch starts with the list request. *)
Lemma updatePRLabels_trace (owner repo slackWebhookUrl : string) (w : world) :
  exists evs,
    trace (snd (updatePRLabels owner repo slackWebhookUrl w))
    = (trace w ++ Call (PullsList owner repo Open) :: evs)%list /\
    Forall of_batch evs.
Proof.
  apply request_first. intros data.
  apply emits_for_of, update_one_of_batch.
Qed.

(** The initializer starts with the request that adds [D-3]. *)
Lemma addDdayLabel_trace (owner repo : string) (prNumber : Z)
    (slackWebhookUrl : string) (w : world) :
  exists evs,
    trace (snd (addDdayLabel owner repo prNumber slackWebhookUrl w))
    = (trace w ++ Call (IssuesAddLabels owner repo prNumber ["D-3"]) :: evs)%list /\
    Forall of_initializer evs.
Proof.
  apply request_first. intros _.
  apply emits_bind; [apply emits_request; exact I |].
  intros pr. apply emits_request. exact I.
Qed.

(* ================================================================== *)
(** ** The dispatch on the event *)
(* ================================================================== *)

Lemma in_requests_of (c : call) (evs : list event) :
  In c (requests_of evs) <-> In (Call c) evs.
Proof.
  unfold requests_of. rewrite in_flat_map. split.
  - intros (e & He & Hc). destruct e; cbn in Hc; try contradiction.
    destruct Hc as [-> | []]. exact He.
  - intros H. exists (Call c). cbn. auto.
Qed.

(** What the [catch] block adds to the events of the [try] block holds no
    request. *)
Lemma try_catch_events (m : M unit) (w : world) (evs : list event) :
  trace (snd (m w)) = (trace w ++ evs)%list ->
  exists evs',
    events_of (try_catch m on_error) w = (evs ++ evs')%list /\
    requests_of evs' = [].
Proof.
  intros Htrace. unfold events_of, try_catch.
  destruct (m w) as [[a | [message |]] w1]; cbn [snd] in *.
  - exists []. rewrite Htrace, skipn_trace, app_nil_r. auto.
  - exists [SetFailed message]. cbn. rewrite Htrace, <- app_assoc, skipn_trace.
    auto.
  - exists []. cbn. rewrite Htrace, skipn_trace, app_nil_r. auto.
Qed.

Lemma requests_of_app (evs evs' : list event) :
  requests_of (evs ++ evs') = (requests_of evs ++ requests_of evs')%list.
Proof. unfold requests_of. apply flat_map_app. Qed.

Section Dispatch.

Variables (r : Runner) (token slackWebhookUrl owner repo : string).
Hypothesis Htoken : getInput r "github-token" = Normal token.
Hypothesis Hclient : token <> EmptyString.
Hypothesis Hurl : getInput r "slack-webhook-url" = Normal slackWebhookUrl.
Hypothesis Hrepo : context_repo r = Normal (owner, repo).

Lemma getOctokit_token (w : world) : getOctokit token w = (Normal tt, w).
Proof. unfold getOctokit. destruct token; [contradiction | reflexivity]. Qed.

Lemma run_batch (w : world) :
  eventName r = "schedule" \/ eventName r = "workflow_dispatch" ->
  run r w = try_catch (updatePRLabels owner repo slackWebhookUrl) on_error w.
Proof.
  intros Hevent. unfold run, try_catch at 1, bind, lift.
  rewrite Htoken, Hurl, getOctokit_token, Hrepo.
  destruct Hevent as [-> | ->]; reflexivity.
Qed.

Lemma run_opened (w : world) :
  eventName r = "pull_request" ->
  run r w
  = try_catch (prNumber <- pull_request_number r ;;
               addDdayLabel owner repo prNumber slackWebhookUrl) on_error w.
Proof.
  intros Hevent. unfold run, try_catch at 1, bind at 1 2 3 4, lift.
  rewrite Htoken, Hurl, getOctokit_token, Hrepo, Hevent. reflexivity.
Qed.

Lemma run_other (w : world) :
  eventName r <> "schedule" -> eventName r <> "workflow_dispatch" ->
  eventName r <> "pull_request" ->
  run r w = (Normal tt, w).
Proof.
  intros H1 H2 H3. unfold run, try_catch, bind, lift.
  rewrite Htoken, Hurl, getOctokit_token, Hrepo.
  apply String.eqb_neq in H1, H2, H3. rewrite H1, H2, H3. reflexivity.
Qed.

Lemma opened_of_initializer :
  emits of_initializer
    (prNumber <- pull_request_number r ;;
     addDdayLabel owner repo prNumber slackWebhookUrl).
Proof.
  apply emits_bind.
  - unfold pull_request_number. destruct (payload_pull_request r);
      [apply emits_ret | apply emits_throw].
  - intros n. unfold addDdayLabel.
    repeat (apply emits_bind; [apply emits_request; exact I | intros ?]).
    apply emits_request. exact I.
Qed.

End Dispatch.

Lemma events_of_ext {A : Type} (m m' : M A) (w : world) :
  m w = m' w -> events_of m w = events_of m' w.
Proof. unfold events_of. intros ->. reflexivity. Qed.

Lemma events_of_unchanged {A : Type} (m : M A) (w : world) (c : completion A) :
  m w = (c, w) -> events_of m w = [].
Proof.
  unfold events_of. intros ->. cbn [snd].
  rewrite <- (app_nil_r (trace w)) at 2. apply skipn_trace.
Qed.

(** The requests of a guarded computation that starts with request [c]. *)
Lemma try_catch_first (m : M unit) (w : world) (c : call) (evs : list event)
    (P : event -> Prop) :
  trace (snd (m w)) = (trace w ++ Call c :: evs)%list -> Forall P evs ->
  forall c', In c' (requests_of (events_of (try_catch m on_error) w)) ->
             c' = c \/ P (Call c').
Proof.
  intros Htrace Hall c' Hin.
  destruct (try_catch_events m w _ Htrace) as (evs' & Hevs & Hnone).
  rewrite Hevs, requests_of_app, Hnone, app_nil_r in Hin. cbn in Hin.
  destruct Hin as [<- | Hin]; [left; reflexivity | right].
  apply in_requests_of in Hin. rewrite Forall_forall in Hall. auto.
Qed.

Lemma try_catch_first_in (m : M unit) (w : world) (c : call) (evs : list event) :
  trace (snd (m w)) = (trace w ++ Call c :: evs)%list ->
  In c (requests_of (events_of (try_catch m on_error) w)).
Proof.
  intros Htrace.
  destruct (try_catch_events m w _ Htrace) as (evs' & -> & _).
  cbn. left. reflexivity.
Qed.

(** C6. With its two inputs, a token that is not empty and the repository at
    hand, [run] is the Batch Updater exactly when the event is [schedule] or
    [workflow_dispatch], the Single-PR Initializer on the number in the
    payload exactly when the event is [pull_request], and for any other event
    it changes nothing and reports nothing. *)
Theorem run_dispatches_on_event
    (r : Runner) (w : world) (token slackWebhookUrl owner repo : string) :
  getInput r "github-token" = Normal token ->
  token <> EmptyString ->
  getInput r "slack-webhook-url" = Normal slackWebhookUrl ->
  context_repo r = Normal (owner, repo) ->
  let batch := eventName r = "schedule" \/ eventName r = "workflow_dispatch" in
  let opened := eventName r = "pull_request" in
  (batch ->
     run r w = try_catch (updatePRLabels owner repo slackWebhookUrl) on_error w) /\
  (forall n, opened -> payload_pull_request r = Some n ->
     run r w = try_catch (addDdayLabel owner repo n slackWebhookUrl) on_error w) /\
  (~ batch -> ~ opened -> run r w = (Normal tt, w)) /\
  (In (PullsList owner repo Open) (requests_of (events_of (run r) w)) <-> batch) /\
  (forall n, payload_pull_request r = Some n ->
     In (IssuesAddLabels owner repo n ["D-3"]) (requests_of (events_of (run r) w))
     <-> opened).
Proof.
  intros Htoken Hclient Hurl Hrepo batch opened.
  pose proof (run_batch r token slackWebhookUrl owner repo
                Htoken Hclient Hurl Hrepo w) as Hbatch.
  pose proof (run_opened r token slackWebhookUrl owner repo
                Htoken Hclient Hurl Hrepo w) as Hopened.
  pose proof (run_other r token slackWebhookUrl owner repo
                Htoken Hclient Hurl Hrepo w) as Hother.
  assert (Hopened' : forall n, opened -> payload_pull_request r = Some n ->
            run r w = try_catch (addDdayLabel owner repo n slackWebhookUrl)
                        on_error w).
  { intros n Ho Hn. rewrite (Hopened Ho).
    unfold try_catch, bind at 1, pull_request_number. rewrite Hn. reflexivity. }
  assert (Hcases : batch \/ (~ batch /\ opened) \/ (~ batch /\ ~ opened)).
  { unfold batch, opened.
    destruct (String.eqb_spec (eventName r) "schedule") as [-> | H1];
      [left; left; reflexivity |].
    destruct (String.eqb_spec (eventName r) "workflow_dispatch") as [-> | H2];
      [left; right; reflexivity |].
    destruct (String.eqb_spec (eventName r) "pull_request") as [H3 | H3];
      [right; left | right; right]; tauto. }
  assert (Hdisjoint : batch -> opened -> False).
  { unfold batch, opened. intros [H | H] H'; rewrite H in H'; discriminate. }
  split; [exact Hbatch |]. split; [exact Hopened' |].
  split; [unfold batch; intros; apply Hother; tauto |].
  split.
  - split; [| intros Hb].
    + intros Hin. destruct Hcases as [Hb | [[_ Ho] | [Hnb Hno]]]; [exact Hb | |].
      * exfalso. rewrite (events_of_ext _ _ w (Hopened Ho)) in Hin.
        destruct (opened_of_initializer r slackWebhookUrl owner repo w)
          as (evs & Htrace & Hall).
        destruct (try_catch_events _ w _ Htrace) as (evs' & Hevs & Hnone).
        rewrite Hevs, requests_of_app, Hnone, app_nil_r in Hin.
        apply in_requests_of in Hin. rewrite Forall_forall in Hall.
        exact (Hall _ Hin).
      * exfalso. unfold batch in Hnb.
        rewrite (events_of_unchanged _ w (Normal tt)) in Hin
          by (apply Hother; tauto).
        exact Hin.
    + rewrite (events_of_ext _ _ w (Hbatch Hb)).
      destruct (updatePRLabels_trace owner repo slackWebhookUrl w)
        as (evs & Htrace & _).
      eapply try_catch_first_in. exact Htrace.
  - intros n Hn. split; [| intros Ho].
    + intros Hin. destruct Hcases as [Hb | [[_ Ho] | [Hnb Hno]]]; [| exact Ho |].
      * exfalso. rewrite (events_of_ext _ _ w (Hbatch Hb)) in Hin.
        destruct (updatePRLabels_trace owner repo slackWebhookUrl w)
          as (evs & Htrace & Hall).
        destruct (try_catch_first _ w _ evs of_batch Htrace Hall _ Hin)
          as [Heq | Hof]; [discriminate Heq | exact Hof].
      * exfalso. unfold batch in Hnb.
        rewrite (events_of_unchanged _ w (Normal tt)) in Hin
          by (apply Hother; tauto).
        exact Hin.
    + rewrite (events_of_ext _ _ w (Hopened' n Ho Hn)).
      destruct (addDdayLabel_trace owner repo n slackWebhookUrl w)
        as (evs & Htrace & _).
      eapply try_catch_first_in. exact Htrace.
Qed.

(** A scheduled run is the Batch Updater. *)
Lemma run_dispatches_on_event_witness :
  let w := start [pull 7 ["D-2"; "bug"]] never in
  run (runner "schedule" None) w
  = try_catch
      (updatePRLabels "minai621" "pr-dday-labeler" "<slack-webhook-url>")
      on_error w.
Proof.
  cbv zeta.
  apply (run_dispatches_on_event (runner "schedule" None)
           (start [pull 7 ["D-2"; "bug"]] never)
           "<github-token>" "<slack-webhook-url>" "minai621" "pr-dday-labeler");
    try reflexivity.
  - discriminate.
  - left. reflexivity.
Defined.

(* ================================================================== *)
(** ** Failures inside the batch *)
(* ================================================================== *)

(** Every iteration of the loop is the body, run in the world the iterations
    before it have left. *)
Lemma for_of_app {A : Type} (body : A -> M unit) (xs ys : list A) (w : world) :
  for_of (xs ++ ys) body w = (for_of xs body ;; for_of ys body) w.
Proof.
  revert w. induction xs as [| x xs IH]; intros w; [reflexivity |].
  cbn [app for_of]. unfold bind in *.
  destruct (body x w) as [[[] | e] w']; [apply IH | reflexivity].
Qed.

(** A loop stops at the first iteration that throws. *)
Lemma for_of_throw {A : Type} (body : A -> M unit) (before after : list A)
    (x : A) (e : thrown) :
  forall w0 w1 w2,
    for_of before body w0 = (Normal tt, w1) ->
    body x w1 = (Throw e, w2) ->
    for_of (before ++ x :: after) body w0 = (Throw e, w2).
Proof.
  intros w0 w1 w2 Hbefore Hx. rewrite for_of_app. unfold bind at 1.
  rewrite Hbefore. cbn [for_of]. unfold bind. rewrite Hx. reflexivity.
Qed.

Lemma update_one_throws (owner repo slackWebhookUrl : string)
    (pr : PullRequest) (w : world) (e : thrown) :
  changed pr = true -> write_or_post_fails pr w e ->
  fst (update_one owner repo slackWebhookUrl pr w) = Throw e.
Proof.
  intros Hchanged Hfails. rewrite update_one_completion, Hchanged.
  destruct Hfails as [-> | [Hanswered ->]]; [reflexivity |].
  unfold answered in Hanswered.
  destruct (failures w (requests w)); [discriminate |].
  rewrite Hanswered. reflexivity.
Qed.

Lemma find_map_off_number (n k : Z) (f : PullRequest -> PullRequest)
    (ps : list PullRequest) :
  (forall p, number (f p) = number p) -> n <> k ->
  find (has_number n) (map (fun p => if has_number k p then f p else p) ps)
  = find (has_number n) ps.
Proof.
  intros Hf Hne. induction ps as [| p ps IH]; [reflexivity |].
  cbn [map find]. destruct (has_number k p) eqn:Hk.
  - unfold has_number in *. rewrite Hf. apply Z.eqb_eq in Hk.
    destruct (Z.eqb_spec (number p) n); [congruence | exact IH].
  - destruct (has_number n p); [reflexivity | exact IH].
Qed.

(** The loop body touches no pull request but its own. *)
Lemma update_one_tracked_others (owner repo slackWebhookUrl : string)
    (pr : PullRequest) (w : world) (n : Z) :
  n <> number pr ->
  tracked (snd (update_one owner repo slackWebhookUrl pr w)) n = tracked w n.
Proof.
  intros Hne. unfold tracked. rewrite update_one_pulls.
  destruct (changed pr && answered w (number pr)); [| reflexivity].
  apply find_map_off_number; [reflexivity | assumption].
Qed.

(** C7, as amended. When the write or the post of one pull request fails, the
    error leaves the loop: the Batch Updater throws it in the world where that
    request failed, whatever pull requests come after, which are not
    processed and stay in the tracker as they were; [run], which reaches the
    batch when its inputs are read and the token is not empty, then ends in
    its [catch] block, which reports the message of an [Error] with
    [setFailed]. *)
Theorem batch_stops_at_first_failure
    (owner repo slackWebhookUrl : string) (w w0 w1 : world)
    (before after : list PullRequest) (pr : PullRequest) (e : thrown) :
  pulls_list owner repo w = (Normal (before ++ pr :: after)%list, w0) ->
  for_of before (update_one owner repo slackWebhookUrl) w0 = (Normal tt, w1) ->
  changed pr = true ->
  write_or_post_fails pr w1 e ->
  let w2 := snd (update_one owner repo slackWebhookUrl pr w1) in
  updatePRLabels owner repo slackWebhookUrl w = (Throw e, w2) /\
  (forall n, n <> number pr -> tracked w2 n = tracked w1 n) /\
  (forall r token,
     getInput r "github-token" = Normal token ->
     token <> EmptyString ->
     getInput r "slack-webhook-url" = Normal slackWebhookUrl ->
     context_repo r = Normal (owner, repo) ->
     eventName r = "schedule" \/ eventName r = "workflow_dispatch" ->
     run r w = on_error e w2) /\
  (forall message, e = Error message ->
     on_error e w2 = (Normal tt, emit (SetFailed message) w2)).
Proof.
  intros Hlist Hbefore Hchanged Hfails w2.
  assert (Hbatch : updatePRLabels owner repo slackWebhookUrl w = (Throw e, w2)).
  { unfold updatePRLabels, bind. rewrite Hlist.
    apply (for_of_throw _ before after pr e w0 w1 w2 Hbefore).
    pose proof (update_one_throws owner repo slackWebhookUrl pr w1 e
                  Hchanged Hfails) as Hthrow.
    subst w2. destruct (update_one owner repo slackWebhookUrl pr w1).
    cbn [fst snd] in *. congruence. }
  split; [exact Hbatch |]. split; [| split].
  - intros n Hn. apply update_one_tracked_others. exact Hn.
  - intros r token Htoken Hclient Hurl Hrepo Hevent.
    rewrite (run_batch r token slackWebhookUrl owner repo
               Htoken Hclient Hurl Hrepo w Hevent).
    unfold try_catch. rewrite Hbatch. reflexivity.
  - intros message ->. reflexivity.
Qed.

(** The write of the first of two pull requests fails. *)
Lemma batch_stops_at_first_failure_witness :
  let w := start [pull 1 ["D-2"]; pull 2 ["D-2"]] (fails_at 1 (Error "boom")) in
  updatePRLabels "o" "r" "hook" w
  = (Throw (Error "boom"),
     {| pulls := [pull 1 ["D-2"]; pull 2 ["D-2"]];
        failures := fails_at 1 (Error "boom");
        requests := 2;
        trace := [Call (PullsList "o" "r" Open);
                  ConsoleLog "PR #1: Current label is D-2, setting to D-1";
                  ConsoleLog "PR #1: Updating label to D-1";
                  Call (IssuesSetLabels "o" "r" 1 ["D-1"])] |}).
Proof.
  cbv zeta.
  apply (batch_stops_at_first_failure "o" "r" "hook"
           (start [pull 1 ["D-2"]; pull 2 ["D-2"]] (fails_at 1 (Error "boom")))
           {| pulls := [pull 1 ["D-2"]; pull 2 ["D-2"]];
              failures := fails_at 1 (Error "boom");
              requests := 1;
              trace := [Call (PullsList "o" "r" Open)] |}
           {| pulls := [pull 1 ["D-2"]; pull 2 ["D-2"]];
              failures := fails_at 1 (Error "boom");
              requests := 1;
              trace := [Call (PullsList "o" "r" Open)] |}
           [] [pull 2 ["D-2"]] (pull 1 ["D-2"]) (Error "boom")).
  - reflexivity.
  - reflexivity.
  - reflexivity.
  - left. reflexivity.
Defined.

(** C7, as first stated, fails: with two pull requests at [D-2], when the
    write of the first fails, or its post, nothing is logged, written or
    posted for the second, which stays at [D-2]; without the failure the
    second moves to [D-1]. *)
Lemma batch_does_not_continue_after_failure :
  let ps := [pull 1 ["D-2"]; pull 2 ["D-2"]] in
  let run_with f := updatePRLabels "o" "r" "hook" (start ps f) in
  (fst (run_with (fails_at 1 (Error "boom"))) = Throw (Error "boom") /\
   trace (snd (run_with (fails_at 1 (Error "boom"))))
   = [Call (PullsList "o" "r" Open);
      ConsoleLog "PR #1: Current label is D-2, setting to D-1";
      ConsoleLog "PR #1: Updating label to D-1";
      Call (IssuesSetLabels "o" "r" 1 ["D-1"])] /\
   tracked (snd (run_with (fails_at 1 (Error "boom")))) 2 = Some (pull 2 ["D-2"])) /\
  (fst (run_with (fails_at 2 (Error "boom"))) = Throw (Error "boom") /\
   trace (snd (run_with (fails_at 2 (Error "boom"))))
   = [Call (PullsList "o" "r" Open);
      ConsoleLog "PR #1: Current label is D-2, setting to D-1";
      ConsoleLog "PR #1: Updating label to D-1";
      Call (IssuesSetLabels "o" "r" 1 ["D-1"]);
      Call (AxiosPost "hook" (notification (summary (pull 1 ["D-2"])) "D-1"))] /\
   tracked (snd (run_with (fails_at 2 (Error "boom")))) 2 = Some (pull 2 ["D-2"])) /\
  tracked (snd (run_with never)) 2 = Some (pull 2 ["D-1"]).
Proof. cbv zeta. repeat split; reflexivity. Qed.

(* ================================================================== *)
(** ** The Single-PR Initializer *)
(* ================================================================== *)

Lemma add_labels_keeps (ls : list string) (pr : PullRequest) (l : Label) :
  In l (labels pr) -> In l (labels (add_labels ls pr)).
Proof. intros H. cbn. apply in_or_app. left. exact H. Qed.

Lemma add_labels_adds (n : string) (pr : PullRequest) :
  In (lbl n) (labels (add_labels [n] pr)).
Proof.
  cbn. apply in_or_app.
  destruct (existsb (has_name n) (labels pr)) eqn:Hhas; cbn.
  - left. apply existsb_exists in Hhas as ([m] & Hin & Hm).
    unfold has_name in Hm. cbn in Hm. apply String.eqb_eq in Hm. subst m.
    exact Hin.
  - right. left. reflexivity.
Qed.

(** C8. On a pull request the tracker holds, with the network working,
    [addDdayLabel] sends three requests in this order: it adds the label
    [D-3], which leaves every label the pull request had; it gets the pull
    request, as labelled; it posts one notification, for that reading and the
    label [D-3]. *)
Theorem addDdayLabel_adds_then_notifies
    (owner repo : string) (prNumber : Z) (slackWebhookUrl : string)
    (w : world) (pr : PullRequest) :
  tracked w prNumber = Some pr ->
  failures w (requests w) = None ->
  failures w (S (requests w)) = None ->
  failures w (S (S (requests w))) = None ->
  let pr' := add_labels ["D-3"] pr in
  let w' := snd (addDdayLabel owner repo prNumber slackWebhookUrl w) in
  fst (addDdayLabel owner repo prNumber slackWebhookUrl w) = Normal tt /\
  events_of (addDdayLabel owner repo prNumber slackWebhookUrl) w
  = [Call (IssuesAddLabels owner repo prNumber ["D-3"]);
     Call (PullsGet owner repo prNumber);
     Call (AxiosPost slackWebhookUrl (notification (summary pr') "D-3"))] /\
  tracked w' prNumber = Some pr' /\
  (forall l, In l (labels pr) -> In l (labels pr')) /\
  In (lbl "D-3") (labels pr').
Proof.
  intros Htracked H0 H1 H2 pr' w'. subst w'.
  pose proof (tracked_some_exists w prNumber pr Htracked) as Hexists.
  assert (Hfound :
    find (has_number prNumber)
      (map (fun p => if has_number prNumber p then add_labels ["D-3"] p else p)
         (pulls w)) = Some pr').
  { rewrite find_map_on_number by reflexivity.
    fold (tracked w prNumber). rewrite Htracked. reflexivity. }
  assert (Hkeeps : forall l, In l (labels pr) -> In l (labels pr')).
  { intros l. apply add_labels_keeps. }
  assert (Hadds : In (lbl "D-3") (labels pr')) by apply add_labels_adds.
  clearbody pr'.
  unfold tracked in *. unfold events_of.
  unfold addDdayLabel, bind, issues_addLabels, pulls_get, sendSlackNotification,
    axios_post, request, on_pull.
  destruct w as [ps fl rq tr]. cbn in H0, H1, H2, Hexists, Hfound |- *.
  rewrite H0, Hexists. cbn. rewrite H1, Hfound. cbn. rewrite H2. cbn.
  rewrite Hfound.
  repeat rewrite <- app_assoc. rewrite skipn_trace. auto.
Qed.

(** Scenario 4 of the specification: pull request 42 is opened. *)
Lemma addDdayLabel_adds_then_notifies_witness :
  let w := start [pull 41 ["D-1"]; pull 42 ["bug"]] never in
  events_of (addDdayLabel "o" "r" 42 "hook") w
  = [Call (IssuesAddLabels "o" "r" 42 ["D-3"]);
     Call (PullsGet "o" "r" 42);
     Call (AxiosPost "hook" (notification (summary (pull 42 ["bug"; "D-3"])) "D-3"))].
Proof.
  cbv zeta.
  apply (addDdayLabel_adds_then_notifies "o" "r" 42 "hook"
           (start [pull 41 ["D-1"]; pull 42 ["bug"]] never) (pull 42 ["bug"]));
    reflexivity.
Defined.

(* ================================================================== *)
(** ** The scenarios of the specification *)
(* ================================================================== *)

Example scenario_1 :
  let w := start [pull 7 ["D-2"; "bug"]] never in
  let w' := snd (updatePRLabels "o" "r" "hook" w) in
  option_map labels (tracked w' 7) = Some [lbl "D-1"; lbl "bug"] /\
  requests_of (events_of (updatePRLabels "o" "r" "hook") w)
  = [PullsList "o" "r" Open;
     IssuesSetLabels "o" "r" 7 ["D-1"; "bug"];
     AxiosPost "hook"
       {| Slack.text := "PR #7 " ++ dquote ++ "Fix" ++ dquote
                        ++ " has been labeled with D-1";
          Slack.blocks :=
            [header (summary (pull 7 [])); fields (summary (pull 7 [])) "D-1"] |}].
Proof. split; reflexivity. Qed.

Example scenario_2 :
  let w := start [pull 8 ["D-0"; "bug"]] never in
  let w' := snd (updatePRLabels "o" "r" "hook" w) in
  pulls w' = pulls w /\
  requests_of (events_of (updatePRLabels "o" "r" "hook") w)
  = [PullsList "o" "r" Open].
Proof. split; reflexivity. Qed.

Example scenario_3 :
  let w := start [pull 9 ["enhancement"]] never in
  let w' := snd (updatePRLabels "o" "r" "hook" w) in
  option_map labels (tracked w' 9) = Some [lbl "D-3"; lbl "enhancement"] /\
  requests_of (events_of (updatePRLabels "o" "r" "hook") w)
  = [PullsList "o" "r" Open;
     IssuesSetLabels "o" "r" 9 ["D-3"; "enhancement"];
     AxiosPost "hook" (notification (summary (pull 9 [])) "D-3")].
Proof. split; reflexivity. Qed.

(* ================================================================== *)
(** ** How [run] ends *)
(* ================================================================== *)

Lemma events_of_here {A : Type} (m : M A) (w : world) (evs : list event) :
  trace (snd (m w)) = (trace w ++ evs)%list -> events_of m w = evs.
Proof. unfold events_of. intros ->. apply skipn_trace. Qed.

(** The loop body reports nothing, and neither do the batch and the
    initializer. *)
Lemma update_one_no_report (owner repo slackWebhookUrl : string)
    (pr : PullRequest) :
  emits no_report (update_one owner repo slackWebhookUrl pr).
Proof.
  unfold update_one. apply emits_bind.
  - destruct (currentLabel pr); apply emits_console_log; exact I.
  - intros _. destruct (changed pr).
    + apply emits_bind; [apply emits_console_log; exact I |].
      intros _. apply emits_bind; [apply emits_request; exact I |].
      intros _. apply emits_request. exact I.
    + apply emits_console_log. exact I.
Qed.

Lemma updatePRLabels_no_report (owner repo slackWebhookUrl : string) :
  emits no_report (updatePRLabels owner repo slackWebhookUrl).
Proof.
  unfold updatePRLabels. apply emits_bind; [apply emits_request; exact I |].
  intros data. apply emits_for_of, update_one_no_report.
Qed.

Lemma addDdayLabel_no_report (owner repo : string) (prNumber : Z)
    (slackWebhookUrl : string) :
  emits no_report (addDdayLabel owner repo prNumber slackWebhookUrl).
Proof.
  unfold addDdayLabel.
  repeat (apply emits_bind; [apply emits_request; exact I | intros ?]).
  apply emits_request. exact I.
Qed.

(** X1. [run] never throws: whatever the runner hands over and whatever the
    network does, it completes normally, the promise it returns is never
    rejected. *)
Theorem run_never_throws (r : Runner) (w : world) : fst (run r w) = Normal tt.
Proof.
  unfold run, try_catch.
  match goal with
  | |- context [match ?b with pair _ _ => _ end] => destruct b as [[[] | e] w1]
  end.
  - reflexivity.
  - destruct e; reflexivity.
Qed.

(** X2. [run] reports a failure at most once, and it is then the last thing
    it does: its events are events that report nothing, followed by at most
    one [setFailed]. *)
Theorem run_reports_once_at_the_end (r : Runner) (w : world) :
  exists evs,
    Forall no_report evs /\
    (events_of (run r) w = evs \/
     exists message, events_of (run r) w = (evs ++ [SetFailed message])%list).
Proof.
  unfold run.
  match goal with
  | |- context [try_catch ?b on_error] => set (body := b)
  end.
  assert (Hbody : emits no_report body).
  { subst body.
    apply emits_bind; [apply emits_lift | intros token].
    apply emits_bind; [apply emits_lift | intros slackWebhookUrl].
    apply emits_bind;
      [destruct token; [apply emits_throw | apply emits_ret] | intros _].
    apply emits_bind; [apply emits_lift | intros [owner repo]].
    destruct (_ || _); [apply updatePRLabels_no_report |].
    destruct (String.eqb _ _); [| apply emits_ret].
    apply emits_bind; [| intros n; apply addDdayLabel_no_report].
    unfold pull_request_number.
    destruct (payload_pull_request r); [apply emits_ret | apply emits_throw]. }
  destruct (Hbody w) as (evs & Htrace & Hall).
  exists evs. split; [exact Hall |].
  unfold try_catch.
  destruct (body w) as [[[] | [message |]] w1] eqn:Hw; cbn [snd] in Htrace.
  - left. apply events_of_here. rewrite Hw. exact Htrace.
  - right. exists message. apply events_of_here. rewrite Hw. cbn.
    rewrite Htrace, app_assoc. reflexivity.
  - left. apply events_of_here. rewrite Hw. exact Htrace.
Qed.

(** X3. When reading the token or the webhook address throws, when the token
    is empty so that the client cannot be built, or when, the token not
    empty, reading the repository throws, [run] sends no request and leaves
    the tracker alone: all it does is to report the message when the thrown
    value is an [Error], and nothing at all otherwise. *)
Theorem configuration_error_stops_run (r : Runner) (w : world) (e : thrown) :
  config_fails r e ->
  events_of (run r) w = report_of e /\
  pulls (snd (run r w)) = pulls w /\
  requests (snd (run r w)) = requests w.
Proof.
  intros Hfails.
  assert (Hrun : run r w = on_error e w).
  { unfold run, try_catch, bind, lift.
    destruct Hfails
      as [-> | (token & -> & [-> | (url & -> & [[-> ->] | [Htoken ->]])])];
      try reflexivity.
    destruct token; [contradiction | reflexivity]. }
  unfold events_of. rewrite Hrun.
  destruct e as [message |]; cbn; repeat split.
  - apply skipn_trace.
  - rewrite <- (app_nil_r (trace w)) at 2. apply skipn_trace.
Qed.

Lemma configuration_error_stops_run_witness :
  let no_url := {| getInput := fun name =>
                     if String.eqb name "github-token" then Normal "t"
                     else Throw (Error ("Input required and not supplied: " ++ name));
                   eventName := "schedule";
                   context_repo := Normal ("o", "r");
                   payload_pull_request := None |} in
  let no_repo := {| getInput := fun name => Normal "t";
                    eventName := "schedule";
                    context_repo := Throw (Error "context.repo requires a GITHUB_REPOSITORY environment variable like 'owner/repo'");
                    payload_pull_request := None |} in
  events_of (run no_url) (start [pull 7 ["D-2"]] never)
  = [SetFailed "Input required and not supplied: slack-webhook-url"] /\
  events_of (run no_repo) (start [pull 7 ["D-2"]] never)
  = [SetFailed "context.repo requires a GITHUB_REPOSITORY environment variable like 'owner/repo'"].
Proof.
  cbv zeta. split.
  - refine (proj1 (configuration_error_stops_run _ _
              (Error "Input required and not supplied: slack-webhook-url") _)).
    right. exists "t". split; [reflexivity |]. left. reflexivity.
  - refine (proj1 (configuration_error_stops_run _ _
              (Error "context.repo requires a GITHUB_REPOSITORY environment variable like 'owner/repo'") _)).
    right. exists "t". split; [reflexivity |]. right. exists "t".
    split; [reflexivity |]. right. split; [discriminate | reflexivity].
Defined.

(** A blank token: the input is read as the empty string, and the client is
    not built. *)
Example blank_token_stops_run :
  events_of (run {| getInput := fun name =>
                      if String.eqb name "github-token" then Normal EmptyString
                      else Normal "hook";
                    eventName := "schedule";
                    context_repo := Normal ("o", "r");
                    payload_pull_request := None |})
    (start [pull 7 ["D-2"]] never)
  = [SetFailed "Parameter token or opts.auth is required"].
Proof. reflexivity. Qed.

(** X4. On a [pull_request] event whose payload holds no pull request, [run]
    sends no request: reading the number throws, and the message is
    reported. *)
Theorem missing_pull_request_is_reported
    (r : Runner) (w : world) (token slackWebhookUrl owner repo : string) :
  getInput r "github-token" = Normal token ->
  getInput r "slack-webhook-url" = Normal slackWebhookUrl ->
  context_repo r = Normal (owner, repo) ->
  eventName r = "pull_request" ->
  payload_pull_request r = None ->
  (exists message, events_of (run r) w = [SetFailed message]) /\
  pulls (snd (run r w)) = pulls w /\
  requests (snd (run r w)) = requests w.
Proof.
  intros Htoken Hurl Hrepo Hevent Hpayload.
  assert (Hrun : exists message,
            run r w = (Normal tt, emit (SetFailed message) w)).
  { destruct token as [| c token'] eqn:Hempty.
    - eexists. unfold run, try_catch, bind, lift.
      rewrite Htoken, Hurl. reflexivity.
    - eexists.
      rewrite (run_opened r token slackWebhookUrl owner repo
                 ltac:(subst; exact Htoken) ltac:(subst; discriminate)
                 Hurl Hrepo w Hevent).
      unfold try_catch, bind, pull_request_number, throw.
      rewrite Hpayload. reflexivity. }
  destruct Hrun as (message & Hrun).
  unfold events_of. rewrite Hrun. cbn. repeat split.
  exists message. apply skipn_trace.
Qed.

Lemma missing_pull_request_is_reported_witness :
  requests_of (events_of (run (runner "pull_request" None))
                 (start [pull 7 ["D-2"]] never)) = [].
Proof.
  destruct (missing_pull_request_is_reported (runner "pull_request" None)
              (start [pull 7 ["D-2"]] never)
              "<github-token>" "<slack-webhook-url>" "minai621" "pr-dday-labeler"
              eq_refl eq_refl eq_refl eq_refl eq_refl) as ((message & ->) & _).
  reflexivity.
Defined.

(** X5. When the list request of a scheduled or manual run fails, the inputs
    read and the token not empty, nothing is logged, written or posted: the
    list request is the only request, the failure is reported, and the
    tracker is as it was. *)
Theorem failed_list_ends_the_batch
    (r : Runner) (w : world) (token slackWebhookUrl owner repo : string)
    (e : thrown) :
  getInput r "github-token" = Normal token ->
  token <> EmptyString ->
  getInput r "slack-webhook-url" = Normal slackWebhookUrl ->
  context_repo r = Normal (owner, repo) ->
  eventName r = "schedule" \/ eventName r = "workflow_dispatch" ->
  failures w (requests w) = Some e ->
  events_of (run r) w = (Call (PullsList owner repo Open) :: report_of e) /\
  pulls (snd (run r w)) = pulls w.
Proof.
  intros Htoken Hclient Hurl Hrepo Hevent Hfail.
  pose proof (run_batch r token slackWebhookUrl owner repo
                Htoken Hclient Hurl Hrepo w Hevent) as Hrun.
  unfold try_catch, updatePRLabels, bind, pulls_list, request in Hrun.
  rewrite Hfail in Hrun.
  unfold events_of. rewrite Hrun.
  destruct e as [message |]; cbn; split; try reflexivity.
  - rewrite <- app_assoc. apply skipn_trace.
  - apply skipn_trace.
Qed.

Lemma failed_list_ends_the_batch_witness :
  events_of (run (runner "schedule" None))
    (start [pull 7 ["D-2"]] (fails_at 0 (Error "Bad credentials")))
  = [Call (PullsList "minai621" "pr-dday-labeler" Open);
     SetFailed "Bad credentials"].
Proof.
  refine (proj1 (failed_list_ends_the_batch (runner "schedule" None)
            (start [pull 7 ["D-2"]] (fails_at 0 (Error "Bad credentials")))
            "<github-token>" "<slack-webhook-url>" "minai621" "pr-dday-labeler"
            (Error "Bad credentials") eq_refl _ eq_refl eq_refl _ eq_refl)).
  - discriminate.
  - left. reflexivity.
Defined.

(* ================================================================== *)
(** ** The whole batch *)
(* ================================================================== *)

Lemma events_of_bind {A B : Type} (P Q : event -> Prop) (m : M A)
    (k : A -> M B) (w : world) :
  emits P m -> (forall a, emits Q (k a)) ->
  events_of (bind m k) w
  = (events_of m w ++
     match m w with
     | (Normal a, w1) => events_of (k a) w1
     | (Throw _, _) => []
     end)%list.
Proof.
  intros Hm Hk. destruct (Hm w) as (evs & Htrace & _).
  unfold events_of at 1 2, bind.
  destruct (m w) as [[a | e] w1]; cbn [snd] in *.
  - destruct (Hk a w1) as (evs' & Htrace' & _).
    rewrite (events_of_here _ _ _ Htrace').
    rewrite Htrace', Htrace, <- app_assoc, !skipn_trace. reflexivity.
  - rewrite Htrace, skipn_trace, app_nil_r. reflexivity.
Qed.

Lemma for_of_cons_normal {A : Type} (body : A -> M unit) (x : A)
    (rest : list A) (w w1 : world) :
  body x w = (Normal tt, w1) ->
  for_of (x :: rest) body w = for_of rest body w1.
Proof. intros Hx. cbn [for_of]. unfold bind. rewrite Hx. reflexivity. Qed.

Lemma existsb_has_number_map (n : Z) (g : PullRequest -> PullRequest)
    (ps : list PullRequest) :
  (forall p, number (g p) = number p) ->
  existsb (has_number n) (map g ps) = existsb (has_number n) ps.
Proof.
  intros Hg. induction ps as [| p ps IH]; [reflexivity |].
  cbn [map existsb]. unfold has_number at 1 3. rewrite Hg, IH. reflexivity.
Qed.

Lemma in_firstn {A : Type} (n : nat) (l : list A) (x : A) :
  In x (firstn n l) -> In x l.
Proof.
  revert l. induction n as [| n IH]; intros [| a l]; cbn; try tauto.
  intros [-> | H]; auto.
Qed.

Lemma in_page (w : world) (pr : PullRequest) :
  In pr (page w) -> In pr (pulls w) /\ is_open pr = true.
Proof. unfold page. intros H. apply in_firstn, filter_In in H. exact H. Qed.

Section Batch.

Variables owner repo slackWebhookUrl : string.

(** The loop body leaves the failures of the network as they are. *)
Lemma update_one_failures (pr : PullRequest) (w : world) :
  failures (snd (update_one owner repo slackWebhookUrl pr w)) = failures w.
Proof.
  unfold update_one. destruct w as [ps fl rq tr].
  destruct (currentLabel pr) as [current |], (changed pr);
    unfold bind, console_log, issues_setLabels, sendSlackNotification,
      axios_post, request, on_pull; cbn; try reflexivity.
  all: destruct (fl rq) as [e |]; [reflexivity |].
  all: destruct (existsb (has_number (number pr)) ps); cbn; try reflexivity.
  all: destruct (fl (S rq)); reflexivity.
Qed.

Lemma update_one_working (pr : PullRequest) (w : world) :
  working w -> working (snd (update_one owner repo slackWebhookUrl pr w)).
Proof. intros Hw k. rewrite update_one_failures. apply Hw. Qed.

(** The loop body keeps the pull requests of the tracker, number by number. *)
Lemma update_one_keeps_numbers (pr : PullRequest) (w : world) (n : Z) :
  existsb (has_number n)
    (pulls (snd (update_one owner repo slackWebhookUrl pr w)))
  = existsb (has_number n) (pulls w).
Proof.
  rewrite update_one_pulls.
  destruct (changed pr && answered w (number pr)); [| reflexivity].
  apply existsb_has_number_map.
  intros p. destruct (has_number (number pr) p); reflexivity.
Qed.

(** With the network working, the loop body completes. *)
Lemma update_one_completes (pr : PullRequest) (w : world) :
  working w -> existsb (has_number (number pr)) (pulls w) = true ->
  update_one owner repo slackWebhookUrl pr w
  = (Normal tt, snd (update_one owner repo slackWebhookUrl pr w)) /\
  answered w (number pr) = true.
Proof.
  intros Hw Hexists.
  pose proof (update_one_completion owner repo slackWebhookUrl pr w) as Hc.
  rewrite !Hw, Hexists in Hc.
  split.
  - destruct (update_one owner repo slackWebhookUrl pr w) as [c w1].
    cbn [fst snd] in *. rewrite Hc.
    destruct (changed pr); reflexivity.
  - unfold answered. rewrite Hw. exact Hexists.
Qed.

(** The loop in a working network: it completes, and its requests are those
    of its pull requests, one after the other. *)
Lemma for_of_working (data : list PullRequest) :
  forall w, working w ->
  (forall pr, In pr data -> existsb (has_number (number pr)) (pulls w) = true) ->
  fst (for_of data (update_one owner repo slackWebhookUrl) w) = Normal tt /\
  requests_of (events_of (for_of data (update_one owner repo slackWebhookUrl)) w)
  = flat_map (requests_for owner repo slackWebhookUrl) data.
Proof.
  induction data as [| x rest IH]; intros w Hw Hexists.
  - split; [reflexivity |]. cbn [for_of flat_map].
    rewrite (events_of_unchanged _ w (Normal tt)); reflexivity.
  - destruct (update_one_completes x w Hw (Hexists x (or_introl eq_refl)))
      as [Hx Hanswered].
    destruct (IH (snd (update_one owner repo slackWebhookUrl x w))) as [Hfst Hreqs].
    + apply update_one_working, Hw.
    + intros pr Hpr. rewrite update_one_keeps_numbers.
      apply Hexists. right. exact Hpr.
    + split.
      * rewrite (for_of_cons_normal _ _ _ _ _ Hx). exact Hfst.
      * cbn [for_of flat_map].
        rewrite (events_of_bind no_report no_report);
          [| apply update_one_no_report
           | intros _; apply emits_for_of, update_one_no_report].
        rewrite Hx, requests_of_app, Hreqs. f_equal.
        rewrite update_one_requests, Hanswered. reflexivity.
Qed.

End Batch.

(** The batch is the list request, and then the loop over the page. *)
Lemma updatePRLabels_listed (owner repo slackWebhookUrl : string) (w : world) :
  failures w (requests w) = None ->
  updatePRLabels owner repo slackWebhookUrl w
  = for_of (page w) (update_one owner repo slackWebhookUrl) (listed owner repo w).
Proof.
  intros Hfail. unfold updatePRLabels, bind, pulls_list, request.
  rewrite Hfail. reflexivity.
Qed.

Lemma updatePRLabels_not_listed (owner repo slackWebhookUrl : string)
    (w : world) (e : thrown) :
  failures w (requests w) = Some e ->
  updatePRLabels owner repo slackWebhookUrl w = (Throw e, listed owner repo w).
Proof.
  intros Hfail. unfold updatePRLabels, bind, pulls_list, request.
  rewrite Hfail. reflexivity.
Qed.

Lemma in_requests_cons (c c0 : call) (evs : list event) :
  In c (requests_of (Call c0 :: evs)) <-> c = c0 \/ In (Call c) evs.
Proof.
  change (requests_of (Call c0 :: evs)) with (c0 :: requests_of evs).
  cbn [In]. rewrite in_requests_of. split; intros [H | H]; auto.
Qed.

(** The events of the loop over [data] are log lines, writes and posts of
    pull requests of [data]. *)
Lemma for_of_of_data (owner repo slackWebhookUrl : string)
    (data : list PullRequest) (P : event -> Prop) :
  (forall line, P (ConsoleLog line)) ->
  (forall pr, In pr data -> P (Call (the_write owner repo pr))) ->
  (forall pr, In pr data -> P (Call (the_post slackWebhookUrl pr))) ->
  forall part, incl part data ->
  emits P (for_of part (update_one owner repo slackWebhookUrl)).
Proof.
  intros Hlog Hwrite Hpost part. induction part as [| x rest IH]; intros Hincl.
  - apply emits_ret.
  - cbn [for_of]. apply emits_bind.
    + assert (Hx : In x data) by (apply Hincl; left; reflexivity).
      unfold update_one. apply emits_bind.
      * destruct (currentLabel x); apply emits_console_log, Hlog.
      * intros _. destruct (changed x); [| apply emits_console_log, Hlog].
        apply emits_bind; [apply emits_console_log, Hlog | intros _].
        apply emits_bind; [apply emits_request, Hwrite, Hx | intros _].
        apply emits_request, Hpost, Hx.
    + intros _. apply IH. intros p Hp. apply Hincl. right. exact Hp.
Qed.

(** X6. Whatever the network does, every request of the Batch Updater is the
    list request, or the write or the post of an open pull request of the
    first page: a closed pull request, or one beyond that page, is neither
    written nor announced. *)
Theorem batch_requests_are_of_the_page
    (owner repo slackWebhookUrl : string) (w : world) (c : call) :
  In c (requests_of (events_of (updatePRLabels owner repo slackWebhookUrl) w)) ->
  c = PullsList owner repo Open \/
  exists pr,
    In pr (page w) /\ In pr (pulls w) /\ is_open pr = true /\
    (c = the_write owner repo pr \/ c = the_post slackWebhookUrl pr).
Proof.
  set (P := fun e =>
              match e with
              | Call c' =>
                  exists pr, In pr (page w) /\
                    (c' = the_write owner repo pr
                     \/ c' = the_post slackWebhookUrl pr)
              | _ => True
              end).
  assert (Hloop : forall w0,
            exists evs,
              trace (snd (for_of (page w)
                            (update_one owner repo slackWebhookUrl) w0))
              = (trace w0 ++ evs)%list /\ Forall P evs).
  { apply (for_of_of_data owner repo slackWebhookUrl (page w) P).
    - intros line. exact I.
    - intros pr Hpr. exists pr. auto.
    - intros pr Hpr. exists pr. auto.
    - apply incl_refl. }
  assert (Hevents : exists evs,
            events_of (updatePRLabels owner repo slackWebhookUrl) w
            = Call (PullsList owner repo Open) :: evs /\ Forall P evs).
  { destruct (failures w (requests w)) eqn:Hfail.
    - exists []. split; [| constructor]. apply events_of_here.
      rewrite (updatePRLabels_not_listed _ _ _ _ _ Hfail). reflexivity.
    - destruct (Hloop (listed owner repo w)) as (evs & Htrace & Hall).
      exists evs. split; [| exact Hall]. apply events_of_here.
      rewrite (updatePRLabels_listed _ _ _ _ Hfail), Htrace.
      cbn [trace listed]. rewrite <- app_assoc. reflexivity. }
  destruct Hevents as (evs & -> & Hall).
  rewrite in_requests_cons. intros [-> | Hin]; [left; reflexivity | right].
  rewrite Forall_forall in Hall. destruct (Hall _ Hin) as (pr & Hpr & Hc).
  exists pr. destruct (in_page w pr Hpr). auto.
Qed.

Lemma batch_requests_are_of_the_page_witness :
  let closed := {| number := 3; title := "Old"; html_url := "u"; user := None;
                   labels := [lbl "D-2"]; state := Closed |} in
  let w := start [closed; pull 7 ["D-2"]] never in
  exists pr,
    In pr (page w) /\ In pr (pulls w) /\ is_open pr = true /\
    (IssuesSetLabels "o" "r" 7 ["D-1"] = the_write "o" "r" pr
     \/ IssuesSetLabels "o" "r" 7 ["D-1"] = the_post "hook" pr).
Proof.
  cbv zeta.
  destruct (batch_requests_are_of_the_page "o" "r" "hook"
              (start [ {| number := 3; title := "Old"; html_url := "u";
                          user := None; labels := [lbl "D-2"];
                          state := Closed |};
                       pull 7 ["D-2"] ] never)
              (IssuesSetLabels "o" "r" 7 ["D-1"])) as [H | H].
  - vm_compute. right. left. reflexivity.
  - discriminate H.
  - exact H.
Defined.

Lemma updatePRLabels_events (owner repo slackWebhookUrl : string) (w : world) :
  failures w (requests w) = None ->
  events_of (updatePRLabels owner repo slackWebhookUrl) w
  = Call (PullsList owner repo Open)
    :: events_of (for_of (page w) (update_one owner repo slackWebhookUrl))
         (listed owner repo w).
Proof.
  intros Hfail.
  destruct (emits_for_of no_report (page w) _
              (update_one_no_report owner repo slackWebhookUrl)
              (listed owner repo w)) as (evs & Htrace & _).
  rewrite (events_of_here _ _ _ Htrace). apply events_of_here.
  rewrite (updatePRLabels_listed _ _ _ _ Hfail), Htrace.
  cbn [trace listed]. rewrite <- app_assoc. reflexivity.
Qed.

Lemma page_is_tracked (w : world) (pr : PullRequest) :
  In pr (page w) -> existsb (has_number (number pr)) (pulls w) = true.
Proof.
  intros Hpr. apply in_page in Hpr as [Hin _]. apply existsb_exists.
  exists pr. split; [exact Hin |]. apply Z.eqb_refl.
Qed.

(** X7. With the network working, the Batch Updater completes, and its
    requests are the list request followed, for each pull request of the page
    in order, by its write and its post when its label changes, and by
    nothing when it does not. *)
Theorem working_batch_requests
    (owner repo slackWebhookUrl : string) (w : world) :
  working w ->
  fst (updatePRLabels owner repo slackWebhookUrl w) = Normal tt /\
  requests_of (events_of (updatePRLabels owner repo slackWebhookUrl) w)
  = PullsList owner repo Open
    :: flat_map (requests_for owner repo slackWebhookUrl) (page w).
Proof.
  intros Hw.
  destruct (for_of_working owner repo slackWebhookUrl (page w)
              (listed owner repo w)) as [Hfst Hreqs].
  - exact Hw.
  - intros pr Hpr. apply (page_is_tracked w pr Hpr).
  - split.
    + rewrite updatePRLabels_listed by apply Hw. exact Hfst.
    + rewrite updatePRLabels_events by apply Hw.
      change (requests_of (Call ?c :: ?evs)) with (c :: requests_of evs).
      rewrite Hreqs. reflexivity.
Qed.

(** The three scenarios of the specification in one run. *)
Lemma working_batch_requests_witness :
  let w := start [pull 7 ["D-2"; "bug"]; pull 8 ["D-0"; "bug"];
                  pull 9 ["enhancement"]] never in
  requests_of (events_of (updatePRLabels "o" "r" "hook") w)
  = [PullsList "o" "r" Open;
     the_write "o" "r" (pull 7 ["D-2"; "bug"]);
     the_post "hook" (pull 7 ["D-2"; "bug"]);
     the_write "o" "r" (pull 9 ["enhancement"]);
     the_post "hook" (pull 9 ["enhancement"])].
Proof.
  cbv zeta.
  refine (proj2 (working_batch_requests "o" "r" "hook"
                   (start [pull 7 ["D-2"; "bug"]; pull 8 ["D-0"; "bug"];
                           pull 9 ["enhancement"]] never) _)).
  intros k. reflexivity.
Defined.

(** *** The tracker after the batch *)

Lemma number_of_tracked (w : world) (n : Z) (pr : PullRequest) :
  tracked w n = Some pr -> number pr = n.
Proof.
  unfold tracked. intros H. apply find_some in H as [_ H].
  apply Z.eqb_eq. exact H.
Qed.

Lemma tracked_member (ps : list PullRequest) (pr : PullRequest) :
  NoDup (map number ps) -> In pr ps ->
  find (has_number (number pr)) ps = Some pr.
Proof.
  induction ps as [| p ps IH]; intros Hnodup Hin; [contradiction |].
  cbn [map] in Hnodup. inversion Hnodup as [| k ks Hnotin Hrest]; subst.
  cbn [find]. destruct Hin as [-> | Hin].
  - unfold has_number. rewrite Z.eqb_refl. reflexivity.
  - destruct (has_number (number pr) p) eqn:Hp; [| apply IH; assumption].
    exfalso. apply Hnotin. apply Z.eqb_eq in Hp. rewrite Hp.
    apply in_map. exact Hin.
Qed.

Lemma nodup_map_filter {A B : Type} (f : A -> B) (g : A -> bool) (l : list A) :
  NoDup (map f l) -> NoDup (map f (filter g l)).
Proof.
  induction l as [| a l IH]; intros Hnodup; [constructor |].
  cbn [map] in Hnodup. inversion Hnodup as [| k ks Hnotin Hrest]; subst.
  cbn [filter]. destruct (g a); [| auto].
  cbn [map]. constructor; [| auto].
  intros Hin. apply Hnotin. apply in_map_iff in Hin as (x & Hx & Hin).
  apply in_map_iff. exists x. split; [exact Hx |].
  apply filter_In in Hin. apply Hin.
Qed.

Lemma nodup_map_firstn {A B : Type} (f : A -> B) (n : nat) (l : list A) :
  NoDup (map f l) -> NoDup (map f (firstn n l)).
Proof.
  revert l. induction n as [| n IH]; intros [| a l] Hnodup; cbn; try constructor.
  - cbn [map] in Hnodup. inversion Hnodup as [| k ks Hnotin Hrest]; subst.
    intros Hin. apply Hnotin. apply in_map_iff in Hin as (x & Hx & Hin).
    apply in_map_iff. exists x. split; [exact Hx |].
    apply in_firstn in Hin. exact Hin.
  - cbn [map] in Hnodup. inversion Hnodup; subst. auto.
Qed.

Section Relabel.

Variables owner repo slackWebhookUrl : string.

(** The loop body on the pull request the tracker holds: the tracker then
    holds it relabelled. *)
Lemma update_one_relabels (pr : PullRequest) (w : world) :
  working w -> tracked w (number pr) = Some pr ->
  tracked (snd (update_one owner repo slackWebhookUrl pr w)) (number pr)
  = Some (relabelled pr).
Proof.
  intros Hw Htracked. unfold tracked, relabelled in *. rewrite update_one_pulls.
  unfold answered. rewrite Hw, (tracked_some_exists w _ _ Htracked).
  destruct (changed pr); cbn [andb]; [| exact Htracked].
  rewrite find_map_on_number by reflexivity. rewrite Htracked. reflexivity.
Qed.

(** The loop in a working network, the numbers of its pull requests all
    different: each ends relabelled, and the tracker keeps the others. *)
Lemma for_of_relabels (data : list PullRequest) :
  forall w, working w -> NoDup (map number data) ->
  (forall pr, In pr data -> tracked w (number pr) = Some pr) ->
  let w' := snd (for_of data (update_one owner repo slackWebhookUrl) w) in
  (forall pr, In pr data -> tracked w' (number pr) = Some (relabelled pr)) /\
  (forall n, ~ In n (map number data) -> tracked w' n = tracked w n).
Proof.
  induction data as [| x rest IH]; intros w Hw Hnodup Htracked; cbv zeta.
  - split; [intros pr [] | reflexivity].
  - cbn [map] in Hnodup. inversion Hnodup as [| k ks Hnotin Hrest]; subst.
    assert (Hx : tracked w (number x) = Some x)
      by (apply Htracked; left; reflexivity).
    destruct (update_one_completes owner repo slackWebhookUrl x w Hw
                (tracked_some_exists w _ _ Hx)) as [Hbody _].
    rewrite (for_of_cons_normal _ _ _ _ _ Hbody).
    set (w1 := snd (update_one owner repo slackWebhookUrl x w)) in *.
    assert (Hothers : forall n, n <> number x -> tracked w1 n = tracked w n).
    { intros n Hn. apply update_one_tracked_others. exact Hn. }
    destruct (IH w1) as [Hin Hout].
    + apply update_one_working, Hw.
    + exact Hrest.
    + intros pr Hpr. rewrite Hothers; [apply Htracked; right; exact Hpr |].
      intros Heq. apply Hnotin. rewrite <- Heq. apply in_map. exact Hpr.
    + split.
      * intros pr [<- | Hpr]; [| apply Hin; exact Hpr].
        rewrite (Hout _ Hnotin). apply update_one_relabels; assumption.
      * intros n Hn. cbn [map In] in Hn.
        rewrite Hout by tauto. apply Hothers. intros ->. tauto.
Qed.

End Relabel.

(** X8. With the network working and the numbers of the tracker's pull
    requests all different, after the Batch Updater the tracker holds every
    pull request of the page relabelled (the computed label first, then its
    other labels, when the label changes; as it was when it does not), and
    every other pull request as it was. *)
Theorem working_batch_relabels
    (owner repo slackWebhookUrl : string) (w : world) :
  working w -> NoDup (map number (pulls w)) ->
  let w' := snd (updatePRLabels owner repo slackWebhookUrl w) in
  (forall pr, In pr (page w) -> tracked w' (number pr) = Some (relabelled pr)) /\
  (forall p, In p (pulls w) -> ~ In p (page w) -> tracked w' (number p) = Some p).
Proof.
  intros Hw Hnodup. cbv zeta.
  rewrite updatePRLabels_listed by apply Hw.
  assert (Hmember : forall p, In p (pulls w) ->
            tracked (listed owner repo w) (number p) = Some p).
  { intros p Hp. apply tracked_member; assumption. }
  destruct (for_of_relabels owner repo slackWebhookUrl (page w)
              (listed owner repo w)) as [Hin Hout].
  - exact Hw.
  - unfold page. apply nodup_map_firstn, nodup_map_filter, Hnodup.
  - intros pr Hpr. apply Hmember. apply (in_page w pr Hpr).
  - split; [exact Hin |].
    intros p Hp Hnot. rewrite Hout; [apply Hmember; exact Hp |].
    intros Hnum. apply in_map_iff in Hnum as (q & Hq & Hqin).
    apply Hnot. replace p with q; [exact Hqin |].
    pose proof (Hmember q (proj1 (in_page w q Hqin))) as Hfq.
    rewrite Hq, (Hmember p Hp) in Hfq. congruence.
Qed.

Lemma working_batch_relabels_witness :
  let closed := {| number := 3; title := "Old"; html_url := "u"; user := None;
                   labels := [lbl "D-2"]; state := Closed |} in
  let w := start [closed; pull 7 ["bug"; "D-2"; "D-9"]] never in
  let w' := snd (updatePRLabels "o" "r" "hook" w) in
  tracked w' 7 = Some (pull 7 ["D-1"; "bug"]) /\ tracked w' 3 = Some closed.
Proof.
  cbv zeta.
  pose proof (working_batch_relabels "o" "r" "hook"
                (start [ {| number := 3; title := "Old"; html_url := "u";
                            user := None; labels := [lbl "D-2"];
                            state := Closed |};
                         pull 7 ["bug"; "D-2"; "D-9"] ] never)) as H.
  cbv zeta in H. destruct H as [Hin Hout].
  - intros k. reflexivity.
  - repeat constructor; cbn; intuition discriminate.
  - split.
    + exact (Hin (pull 7 ["bug"; "D-2"; "D-9"]) (or_introl eq_refl)).
    + refine (Hout _ (or_introl eq_refl) _).
      intros [H | []]. discriminate H.
Defined.

(* ================================================================== *)
(** ** The countdown, run after run *)
(* ================================================================== *)

Lemma decimal_inj (a b : Z) :
  0 <= a -> 0 <= b -> Js.decimal a = Js.decimal b -> a = b.
Proof.
  intros Ha Hb Heq.
  pose proof (JsFacts.scan_decimal a Ha) as Hsa.
  rewrite Heq, (JsFacts.scan_decimal b Hb) in Hsa. congruence.
Qed.

Lemma currentLabel_of_dday (pr : PullRequest) (s : string) :
  dday pr = Some s -> currentLabel pr = Some (lbl s).
Proof.
  unfold dday. destruct (currentLabel pr) as [[n] |]; cbn; intros [= ->];
    reflexivity.
Qed.

Lemma other_labels_replace (ls : list string) (pr : PullRequest) :
  other_labels (replace_labels ls pr) = filter (fun n => negb (is_dday n)) ls.
Proof.
  unfold other_labels, replace_labels. cbn [labels with_labels].
  induction ls as [| n ls IH]; [reflexivity |].
  cbn [map filter name]. destruct (is_dday n); cbn [negb map name];
    rewrite IH; reflexivity.
Qed.

(** One step of the countdown on what the tracker holds. *)
Lemma relabelled_step (pr : PullRequest) (d : Z) :
  0 <= d <= 2 ^ 53 ->
  dday pr = Some ("D-" ++ Js.int_to_string d) ->
  dday (relabelled pr) = Some ("D-" ++ Js.int_to_string (Z.max 0 (d - 1))) /\
  other_labels (relabelled pr) = other_labels pr /\
  number (relabelled pr) = number pr /\
  (changed pr = true <-> 1 <= d).
Proof.
  intros Hd Hdday. pose proof (currentLabel_of_dday pr _ Hdday) as Hcur.
  unfold relabelled, changed. rewrite Hcur. cbn [name lbl].
  destruct (Z.eq_dec d 0) as [-> | Hne].
  - rewrite (newLabel_floor pr 0 ltac:(lia) Hcur). cbn.
    repeat split; try assumption; try discriminate. lia.
  - rewrite (newLabel_decrement pr d ltac:(lia) Hcur).
    replace (Z.max 0 (d - 1)) with (d - 1) by lia.
    destruct (String.eqb_spec ("D-" ++ Js.int_to_string (d - 1))
                ("D-" ++ Js.int_to_string d)) as [Heq | _].
    + exfalso. injection Heq as Heq.
      unfold Js.int_to_string in Heq.
      destruct (Z.ltb_spec (d - 1) 0), (Z.ltb_spec d 0); try lia.
      apply decimal_inj in Heq; lia.
    + cbn [negb]. rewrite dday_replace_labels, other_labels_replace.
      rewrite (newLabel_decrement pr d ltac:(lia) Hcur).
      rewrite filter_non_dday_written.
      repeat split; try reflexivity; intros; lia.
Qed.

(** X9. The countdown. With the network working, a pull request that the
    tracker holds at [D-<d>], [0 <= d <= 2 ^ 53], is at [D-<d-k>] after [k]
    passes of the loop body, at [D-0] from the [d]-th pass on, and its other
    labels are those it had. *)
Theorem countdown_runs_down_to_due_today
    (owner repo slackWebhookUrl : string) (n : Z) (k : nat) :
  forall (d : Z) (w : world) (pr : PullRequest),
    0 <= d <= 2 ^ 53 ->
    working w ->
    tracked w n = Some pr ->
    dday pr = Some ("D-" ++ Js.int_to_string d) ->
    exists pr',
      tracked (Nat.iter k (rerun owner repo slackWebhookUrl n) w) n = Some pr' /\
      dday pr' = Some ("D-" ++ Js.int_to_string (Z.max 0 (d - Z.of_nat k))) /\
      other_labels pr' = other_labels pr.
Proof.
  induction k as [| k IH]; intros d w pr Hd Hw Htracked Hdday.
  - exists pr. cbn [Nat.iter].
    replace (Z.max 0 (d - Z.of_nat 0)) with d by lia. auto.
  - rewrite Nat.iter_succ_r.
    pose proof (number_of_tracked w n pr Htracked) as Hn. subst n.
    destruct (relabelled_step pr d Hd Hdday) as (Hnext & Hother & Hnum & _).
    set (w1 := rerun owner repo slackWebhookUrl (number pr) w).
    assert (Hw1 : w1 = snd (update_one owner repo slackWebhookUrl pr w)).
    { unfold w1, rerun. rewrite Htracked. reflexivity. }
    destruct (IH (Z.max 0 (d - 1)) w1 (relabelled pr)) as (pr' & Ht & Hd' & Ho).
    + lia.
    + rewrite Hw1. apply update_one_working, Hw.
    + rewrite Hw1. apply update_one_relabels; assumption.
    + exact Hnext.
    + exists pr'. split; [exact Ht |]. split; [| congruence].
      rewrite Hd'. do 3 f_equal. lia.
Qed.

(** Three runs from [D-3]. *)
Lemma countdown_runs_down_to_due_today_witness :
  let w := start [pull 7 ["bug"; "D-3"]] never in
  exists pr',
    tracked (Nat.iter 3 (rerun "o" "r" "hook" 7) w) 7 = Some pr' /\
    dday pr' = Some "D-0" /\
    other_labels pr' = ["bug"].
Proof.
  cbv zeta.
  refine (countdown_runs_down_to_due_today "o" "r" "hook" 7 3 3
            (start [pull 7 ["bug"; "D-3"]] never) (pull 7 ["bug"; "D-3"])
            _ _ eq_refl eq_refl).
  - vm_compute. split; discriminate.
  - intros k. reflexivity.
Defined.

(* ================================================================== *)
(** ** The shape of the computed label *)
(* ================================================================== *)

Module JsShape.
Import Js.

(** A numeral of a positive integer starts with a digit that is not zero. *)
Lemma decimal_loop_leading (fuel : nat) :
  forall n rest, 1 <= n < 2 ^ Z.of_nat (S fuel) ->
  exists d r, 1 <= d < 10 /\ decimal_loop (S fuel) n rest = String (digit_char d) r.
Proof.
  induction fuel as [| fuel IH]; intros n rest Hn;
    rewrite JsFacts.decimal_loop_step.
  - change (2 ^ Z.of_nat 1) with 2 in Hn.
    destruct (Z.ltb_spec n 10); [| lia].
    exists n, rest. rewrite Z.mod_small by lia. split; [lia | reflexivity].
  - destruct (Z.ltb_spec n 10) as [Hlt | Hge].
    + exists n, rest. rewrite Z.mod_small by lia. split; [lia | reflexivity].
    + apply IH. split.
      * apply Z.div_le_lower_bound; lia.
      * apply Z.div_lt_upper_bound; [lia |].
        rewrite (Nat2Z.inj_succ (S fuel)), Z.pow_succ_r in Hn by lia. lia.
Qed.

Lemma decimal_leading (n : Z) :
  1 <= n -> exists d r, 1 <= d < 10 /\ decimal n = String (digit_char d) r.
Proof.
  intros Hn. apply decimal_loop_leading.
  pose proof (JsFacts.decimal_fuel n ltac:(lia)). lia.
Qed.

(** Any numeral starts with a digit. *)
Lemma decimal_head (n : Z) :
  0 <= n -> exists d r, 0 <= d < 10 /\ decimal n = String (digit_char d) r.
Proof.
  intros Hn. destruct (Z.eq_dec n 0) as [-> | Hne].
  - exists 0, EmptyString. split; [lia | reflexivity].
  - destruct (decimal_leading n ltac:(lia)) as (d & r & Hd & Heq).
    exists d, r. split; [lia | exact Heq].
Qed.

Lemma strip_trailing_zeros_head (d : Z) (r : string) :
  1 <= d < 10 ->
  exists r', strip_trailing_zeros (String (digit_char d) r)
             = String (digit_char d) r'.
Proof.
  intros Hd. cbn [strip_trailing_zeros].
  destruct (strip_trailing_zeros r) as [| c r'].
  - exists EmptyString.
    assert (Hz : Ascii.eqb (digit_char d) "0" = false)
      by (JsFacts.digit_cases d; try lia; reflexivity).
    rewrite Hz. reflexivity.
  - eexists. reflexivity.
Qed.

Lemma round_double_nonneg (m v : Z) :
  0 <= m -> round_double m = Some v -> 0 <= v.
Proof.
  intros Hm. unfold round_double.
  destruct (Z.ltb_spec m (2 ^ 53)) as [_ | Hge]; [intros [= <-]; exact Hm |].
  set (e := Z.log2 m - 52). set (q := Z.shiftr m e).
  match goal with
  | |- context [if ?c then q + 1 else q] =>
      set (q' := if c then q + 1 else q);
      assert (Hq' : q <= q') by (unfold q'; destruct c; lia)
  end.
  destruct (Z.shiftl q' e <? 2 ^ 1024); [| discriminate].
  intros [= <-]. apply Z.shiftl_nonneg.
  assert (0 <= q) by (apply Z.shiftr_nonneg; lia). lia.
Qed.

Lemma candidate_rounds (x scale v : Z) :
  candidate x scale = Some v ->
  rounds_to v x = true /\ (v = x / scale * scale \/ v = x / scale * scale + scale).
Proof.
  unfold candidate.
  destruct (rounds_to (x / scale * scale) x) eqn:Hlo,
           (rounds_to (x / scale * scale + scale) x) eqn:Hhi;
    try discriminate.
  - destruct (_ <? _); [intros [= <-]; auto |].
    destruct (_ <? _); [intros [= <-]; auto |].
    destruct (Z.even _); intros [= <-]; auto.
  - intros [= <-]. auto.
  - intros [= <-]. auto.
Qed.

Lemma shortest_positive (x : Z) (j : nat) : 1 <= x -> 1 <= shortest x j.
Proof.
  intros Hx. induction j as [| j IH]; [exact Hx |].
  change (shortest x (S j))
    with (match candidate x (10 ^ Z.of_nat (S j)) with
          | Some v => v
          | None => shortest x j
          end).
  destruct (candidate x (10 ^ Z.of_nat (S j))) as [v |] eqn:Hc; [| exact IH].
  apply candidate_rounds in Hc as [Hround Hv].
  set (scale := 10 ^ Z.of_nat (S j)) in *.
  assert (Hscale : 0 < scale) by (apply Z.pow_pos_nonneg; lia).
  assert (Hdiv : 0 <= x / scale) by (apply Z.div_pos; lia).
  assert (Hnonneg : 0 <= v) by (destruct Hv; subst v; nia).
  destruct (Z.eq_dec v 0) as [-> | Hne]; [| lia].
  unfold rounds_to in Hround.
  change (round_double 0) with (Some 0) in Hround.
  apply Z.eqb_eq in Hround. lia.
Qed.

(** A positive number prints with a leading digit that is not zero. *)
Lemma positive_to_string_head (x : Z) :
  1 <= x ->
  exists d r, 1 <= d < 10 /\ positive_to_string x = String (digit_char d) r.
Proof.
  intros Hx. unfold positive_to_string.
  set (v := shortest x _).
  assert (Hv : 1 <= v) by (apply shortest_positive; exact Hx).
  destruct (decimal_leading v Hv) as (d & r & Hd & Heq).
  destruct (v <? 10 ^ 21); [exists d, r; auto |].
  rewrite Heq.
  destruct (strip_trailing_zeros_head d r Hd) as (r' & ->).
  destruct r'; eexists d, _; split; try exact Hd; reflexivity.
Qed.

(** What [x - 1] prints as when [x > 0]: [Infinity], or a numeral. *)
Lemma positive_minus_one_shape (x : number) :
  gt_zero x = true ->
  number_to_string (sub_one x) = "Infinity" \/
  exists d r, 0 <= d < 10 /\
    number_to_string (sub_one x) = String (digit_char d) r.
Proof.
  destruct x as [| [|] m | [|]]; cbn [gt_zero negb]; try discriminate.
  - intros Hm. apply Z.ltb_lt in Hm. cbn [sub_one].
    destruct (Z.eqb_spec m 0); [lia |].
    unfold of_integer.
    destruct (round_double (m - 1)) as [v |] eqn:Hround; [| left; reflexivity].
    right. pose proof (round_double_nonneg (m - 1) v ltac:(lia) Hround) as Hv.
    cbn [number_to_string].
    destruct (Z.eqb_spec v 0).
    + exists 0, EmptyString. split; [lia | reflexivity].
    + destruct (positive_to_string_head v ltac:(lia)) as (d & r & Hd & ->).
      exists d, r. split; [lia | reflexivity].
  - intros _. left. reflexivity.
Qed.

(** Text after a numeral, not starting with a digit, is not read. *)
Lemma decimal_loop_append (fuel : nat) :
  forall n acc t,
    decimal_loop fuel n (acc ++ t) = decimal_loop fuel n acc ++ t.
Proof.
  induction fuel as [| fuel IH]; intros n acc t; [reflexivity |].
  rewrite !JsFacts.decimal_loop_step.
  destruct (n <? 10); [reflexivity |].
  exact (IH (n / 10) (String (digit_char (n mod 10)) acc) t).
Qed.

Lemma parseInt_decimal_then (n : Z) (t : string) :
  1 <= n -> not_a_digit t -> parseInt (decimal n ++ t) = of_integer false n.
Proof.
  intros Hn Ht.
  assert (Hscan : scan_digits 10 (decimal n ++ t) 0 false = Some n).
  { unfold decimal.
    rewrite <- (decimal_loop_append _ n EmptyString t). cbn [append].
    destruct (JsFacts.scan_decimal_loop _ n t
                (JsFacts.decimal_fuel n ltac:(lia))) as (k & _ & Hk).
    rewrite Hk. destruct t as [| c t]; cbn in Ht |- *; [reflexivity |].
    rewrite Ht. reflexivity. }
  destruct (decimal_leading n Hn) as (d & r & Hd & Heq).
  rewrite Heq in *. cbn [append] in *. unfold parseInt. simpl trim_start.
  destruct (JsFacts.digit_char_plain d ltac:(lia)) as (Hws & Hminus & Hplus & _).
  rewrite Hws, Hminus, Hplus.
  assert (Hz : Ascii.eqb (digit_char d) "0" = false)
    by (JsFacts.digit_cases d; try lia; reflexivity).
  destruct (r ++ t) as [| c1 r1] eqn:Hr.
  - rewrite Hscan. reflexivity.
  - rewrite Hz. cbn [andb]. rewrite Hscan. reflexivity.
Qed.

End JsShape.

(** X10. The computed label always names a day: it is [D-] followed by a
    decimal digit, or it is [D-Infinity]; it is never [D-NaN] and never has a
    minus sign after [D-]. *)
Theorem newLabel_names_a_day (pr : PullRequest) :
  (newLabel pr = "D-Infinity" \/
   exists c r, Js.digit_value 10 c <> None /\
     newLabel pr = String "D" (String "-" (String c r))) /\
  newLabel pr <> "D-NaN" /\
  Js.startsWith (newLabel pr) "D--" = false.
Proof.
  assert (Hshape : newLabel pr = "D-Infinity" \/
            exists d r, 0 <= d < 10 /\
              newLabel pr = String "D" (String "-" (String (Js.digit_char d) r))).
  { unfold newLabel. destruct (currentLabel pr) as [current |].
    - destruct (Js.gt_zero _) eqn:Hpos.
      + destruct (JsShape.positive_minus_one_shape _ Hpos)
          as [-> | (d & r & Hd & ->)]; [left; reflexivity | right].
        exists d, r. split; [exact Hd | reflexivity].
      + right. exists 0, EmptyString. split; [lia | reflexivity].
    - right. exists 3, EmptyString. split; [lia | reflexivity]. }
  destruct Hshape as [-> | (d & r & Hd & ->)].
  - split; [left; reflexivity |]. split; [discriminate | reflexivity].
  - split; [| split].
    + right. exists (Js.digit_char d), r.
      rewrite JsFacts.digit_value_digit_char by exact Hd.
      split; [discriminate | reflexivity].
    + intros [= Hc _]. JsFacts.digit_cases d; discriminate Hc.
    + cbn. JsFacts.digit_cases d; reflexivity.
Qed.

(** X11. Text after the day is not read and not kept: when the first D-label
    is [D-<d>] followed by text that does not start with a digit, with
    [1 <= d <= 2 ^ 53], the computed label is [D-<d-1>], without the text,
    and it differs from the current one. *)
Theorem decrement_drops_trailing_text (pr : PullRequest) (d : Z) (t : string) :
  1 <= d <= 2 ^ 53 ->
  not_a_digit t ->
  first_dday (labels pr) (lbl ("D-" ++ Js.decimal d ++ t)) ->
  newLabel pr = "D-" ++ Js.decimal (d - 1) /\ label_differs pr.
Proof.
  intros Hd Ht Hfirst. apply currentLabel_first in Hfirst.
  assert (Hnew : newLabel pr = "D-" ++ Js.decimal (d - 1)).
  { unfold newLabel. rewrite Hfirst.
    change (Js.slice 2 (name (lbl ("D-" ++ Js.decimal d ++ t))))
      with (Js.decimal d ++ t).
    rewrite JsShape.parseInt_decimal_then, JsFacts.of_integer_safe by (auto; lia).
    cbn [Js.gt_zero Js.sub_one].
    destruct (Z.ltb_spec 0 d); [| lia].
    destruct (Z.eqb_spec d 0); [lia |].
    rewrite JsFacts.of_integer_safe, JsFacts.number_to_string_safe by lia.
    reflexivity. }
  split; [exact Hnew |].
  unfold label_differs, dday. rewrite Hfirst, Hnew. cbn [option_map name lbl].
  intros [= Heq].
  pose proof (JsShape.parseInt_decimal_then d t ltac:(lia) Ht) as Hparse.
  rewrite Heq, JsFacts.parseInt_decimal in Hparse by lia.
  rewrite !JsFacts.of_integer_safe in Hparse by lia.
  injection Hparse. lia.
Qed.

Lemma decrement_drops_trailing_text_witness :
  newLabel (pull 7 ["bug"; "D-3 days"]) = "D-2".
Proof.
  refine (proj1 (decrement_drops_trailing_text (pull 7 ["bug"; "D-3 days"])
                   3 " days" _ eq_refl _)).
  - vm_compute. split; discriminate.
  - apply first_dday_next; [reflexivity |].
    apply first_dday_head. reflexivity.
Defined.

(* ================================================================== *)
(** ** Requests that fail half way *)
(* ================================================================== *)

(** X12. The loop body neither retries nor undoes.  When the write of a pull
    request whose label changes fails, the body throws after that one
    request and the tracker is as it was.  When the write is answered and
    the post fails, the body throws as well, but the tracker holds the new
    label: the next run counts down from it, and this notification is never
    sent again. *)
Theorem loop_body_failure_is_not_undone
    (owner repo slackWebhookUrl : string) (pr : PullRequest) (w : world)
    (e : thrown) :
  label_differs pr ->
  tracked w (number pr) = Some pr ->
  let result := update_one owner repo slackWebhookUrl pr w in
  let sent := requests_of (events_of (update_one owner repo slackWebhookUrl pr) w) in
  (failures w (requests w) = Some e ->
     fst result = Throw e /\
     sent = [the_write owner repo pr] /\
     pulls (snd result) = pulls w) /\
  (failures w (requests w) = None -> failures w (S (requests w)) = Some e ->
     fst result = Throw e /\
     sent = [the_write owner repo pr; the_post slackWebhookUrl pr] /\
     tracked (snd result) (number pr)
     = Some (replace_labels (written_labels pr) pr) /\
     dday (replace_labels (written_labels pr) pr) = Some (newLabel pr)).
Proof.
  intros Hdiff Htracked result sent. subst result sent.
  apply changed_differs in Hdiff.
  pose proof (tracked_some_exists w _ _ Htracked) as Hexists.
  rewrite update_one_completion, update_one_requests. unfold tracked.
  rewrite update_one_pulls. unfold answered. rewrite Hdiff, Hexists.
  split.
  - intros ->. auto.
  - intros -> ->. cbn [andb]. repeat split.
    + rewrite find_map_on_number by reflexivity.
      fold (tracked w (number pr)). rewrite Htracked. reflexivity.
    + apply dday_replace_labels.
Qed.

Lemma loop_body_failure_is_not_undone_witness :
  let pr := pull 7 ["D-2"; "bug"] in
  let w := start [pr] (fails_at 1 (Error "channel_not_found")) in
  fst (update_one "o" "r" "hook" pr w) = Throw (Error "channel_not_found") /\
  tracked (snd (update_one "o" "r" "hook" pr w)) 7 = Some (pull 7 ["D-1"; "bug"]).
Proof.
  cbv zeta.
  destruct (loop_body_failure_is_not_undone "o" "r" "hook"
              (pull 7 ["D-2"; "bug"])
              (start [pull 7 ["D-2"; "bug"]]
                 (fails_at 1 (Error "channel_not_found")))
              (Error "channel_not_found")) as [_ Hpost].
  - vm_compute. discriminate.
  - reflexivity.
  - destruct (Hpost eq_refl eq_refl) as (Hthrow & _ & Htracked & _).
    split; [exact Hthrow | exact Htracked].
Defined.

Section Initializer.

Variables (owner repo : string) (prNumber : Z) (slackWebhookUrl : string).

(** What the initializer leaves in the tracker. *)
Lemma addDdayLabel_pulls (w : world) :
  pulls (snd (addDdayLabel owner repo prNumber slackWebhookUrl w))
  = if answered w prNumber then labelled prNumber (pulls w) else pulls w.
Proof.
  unfold addDdayLabel, answered, labelled, bind, issues_addLabels, pulls_get,
    sendSlackNotification, axios_post, request, on_pull.
  destruct w as [ps fl rq tr]. cbn.
  destruct (fl rq); [reflexivity |].
  destruct (existsb (has_number prNumber) ps); cbn; [| reflexivity].
  destruct (fl (S rq)); [reflexivity |].
  destruct (find _ _); cbn; [| reflexivity].
  destruct (fl (S (S rq))); reflexivity.
Qed.

Lemma tracked_labelled (w : world) (pr : PullRequest) :
  tracked w prNumber = Some pr ->
  find (has_number prNumber) (labelled prNumber (pulls w))
  = Some (add_labels ["D-3"] pr).
Proof.
  intros Htracked. unfold labelled.
  rewrite find_map_on_number by reflexivity.
  fold (tracked w prNumber). rewrite Htracked. reflexivity.
Qed.

(** The requests of the initializer on a pull request the tracker holds, and
    how it completes. *)
Lemma addDdayLabel_steps (w : world) (pr : PullRequest) :
  tracked w prNumber = Some pr ->
  let pr' := add_labels ["D-3"] pr in
  let add := IssuesAddLabels owner repo prNumber ["D-3"] in
  let get := PullsGet owner repo prNumber in
  let post := AxiosPost slackWebhookUrl (notification (summary pr') "D-3") in
  (requests_of (events_of (addDdayLabel owner repo prNumber slackWebhookUrl) w),
   fst (addDdayLabel owner repo prNumber slackWebhookUrl w))
  = match failures w (requests w) with
    | Some e => ([add], Throw e)
    | None =>
        match failures w (S (requests w)) with
        | Some e => ([add; get], Throw e)
        | None =>
            ([add; get; post],
             match failures w (S (S (requests w))) with
             | Some e => Throw e
             | None => Normal tt
             end)
        end
    end.
Proof.
  intros Htracked. cbv zeta.
  pose proof (tracked_some_exists w _ _ Htracked) as Hexists.
  pose proof (tracked_labelled w pr Htracked) as Hfound.
  unfold labelled in Hfound. unfold events_of.
  unfold addDdayLabel, bind, issues_addLabels, pulls_get,
    sendSlackNotification, axios_post, request, on_pull.
  destruct w as [ps fl rq tr]. cbn in Hexists, Hfound |- *.
  destruct (fl rq); cbn.
  { rewrite skipn_trace. reflexivity. }
  rewrite Hexists. cbn.
  destruct (fl (S rq)); cbn.
  { rewrite <- app_assoc, skipn_trace. reflexivity. }
  rewrite Hfound. cbn.
  destruct (fl (S (S rq))); cbn;
    repeat rewrite <- app_assoc; rewrite skipn_trace; reflexivity.
Qed.

End Initializer.

(** X13. The initializer neither retries nor undoes.  On a pull request the
    tracker holds: when adding the label fails, that request is the only one
    and the tracker is as it was; when the label is added and getting the
    pull request fails, nothing is posted, yet the label stays; the post
    comes only after both were answered, and when it fails the label stays
    as well. *)
Theorem initializer_failure_is_not_undone
    (owner repo : string) (prNumber : Z) (slackWebhookUrl : string)
    (w : world) (pr : PullRequest) :
  tracked w prNumber = Some pr ->
  let pr' := add_labels ["D-3"] pr in
  let add := IssuesAddLabels owner repo prNumber ["D-3"] in
  let get := PullsGet owner repo prNumber in
  let post := AxiosPost slackWebhookUrl (notification (summary pr') "D-3") in
  let result := addDdayLabel owner repo prNumber slackWebhookUrl w in
  let sent :=
    requests_of (events_of (addDdayLabel owner repo prNumber slackWebhookUrl) w) in
  (forall e, failures w (requests w) = Some e ->
     fst result = Throw e /\ sent = [add] /\ pulls (snd result) = pulls w) /\
  (failures w (requests w) = None ->
     tracked (snd result) prNumber = Some pr' /\
     (forall e, failures w (S (requests w)) = Some e ->
        fst result = Throw e /\ sent = [add; get]) /\
     (failures w (S (requests w)) = None ->
        sent = [add; get; post] /\
        forall e, failures w (S (S (requests w))) = Some e ->
                  fst result = Throw e)).
Proof.
  intros Htracked. cbv zeta.
  pose proof (addDdayLabel_steps owner repo prNumber slackWebhookUrl w pr
                Htracked) as Hsteps.
  cbv zeta in Hsteps.
  pose proof (addDdayLabel_pulls owner repo prNumber slackWebhookUrl w) as Hpulls.
  unfold answered in Hpulls.
  rewrite (tracked_some_exists w _ _ Htracked) in Hpulls.
  split.
  - intros e He. rewrite He in Hsteps, Hpulls.
    injection Hsteps as Hsent Hfst. auto.
  - intros H0. rewrite H0 in Hsteps, Hpulls. split; [| split].
    + unfold tracked. rewrite Hpulls. apply tracked_labelled. exact Htracked.
    + intros e He. rewrite He in Hsteps. injection Hsteps as Hsent Hfst. auto.
    + intros H1. rewrite H1 in Hsteps. injection Hsteps as Hsent Hfst.
      split; [exact Hsent |]. intros e He. rewrite He in Hfst. exact Hfst.
Qed.

Lemma initializer_failure_is_not_undone_witness :
  let w := start [pull 42 ["bug"]] (fails_at 1 (Error "Server Error")) in
  tracked (snd (addDdayLabel "o" "r" 42 "hook" w)) 42
  = Some (pull 42 ["bug"; "D-3"]) /\
  requests_of (events_of (addDdayLabel "o" "r" 42 "hook") w)
  = [IssuesAddLabels "o" "r" 42 ["D-3"]; PullsGet "o" "r" 42].
Proof.
  cbv zeta.
  destruct (initializer_failure_is_not_undone "o" "r" 42 "hook"
              (start [pull 42 ["bug"]] (fails_at 1 (Error "Server Error")))
              (pull 42 ["bug"]) eq_refl) as [_ Hadded].
  destruct (Hadded eq_refl) as (Htracked & Hget & _).
  split; [exact Htracked |].
  exact (proj2 (Hget (Error "Server Error") eq_refl)).
Defined.

Lemma dday_labels_app (pr : PullRequest) (ls : list Label) :
  filter (fun l => is_dday (name l)) (labels pr ++ ls)
  = (dday_labels pr ++ filter (fun l => is_dday (name l)) ls)%list.
Proof. unfold dday_labels. apply filter_app. Qed.

(** X14. The initializer does not look at the labels a pull request has.
    Where the tracker answers, a pull request without the label [D-3] has one
    more D-label afterwards, beside any D-label it had; one that has [D-3]
    keeps its labels as they are; and the notification is posted all the
    same. *)
Theorem initializer_keeps_existing_dday
    (owner repo : string) (prNumber : Z) (slackWebhookUrl : string)
    (w : world) (pr : PullRequest) :
  tracked w prNumber = Some pr ->
  failures w (requests w) = None ->
  failures w (S (requests w)) = None ->
  let pr' := add_labels ["D-3"] pr in
  let w' := snd (addDdayLabel owner repo prNumber slackWebhookUrl w) in
  tracked w' prNumber = Some pr' /\
  (existsb (has_name "D-3") (labels pr) = false ->
     dday_labels pr' = (dday_labels pr ++ [lbl "D-3"])%list) /\
  (existsb (has_name "D-3") (labels pr) = true -> labels pr' = labels pr) /\
  In (AxiosPost slackWebhookUrl (notification (summary pr') "D-3"))
    (requests_of (events_of (addDdayLabel owner repo prNumber slackWebhookUrl) w)).
Proof.
  intros Htracked H0 H1. cbv zeta.
  pose proof (addDdayLabel_steps owner repo prNumber slackWebhookUrl w pr
                Htracked) as Hsteps.
  cbv zeta in Hsteps. rewrite H0, H1 in Hsteps. injection Hsteps as Hsent _.
  pose proof (addDdayLabel_pulls owner repo prNumber slackWebhookUrl w) as Hpulls.
  unfold answered in Hpulls.
  rewrite H0, (tracked_some_exists w _ _ Htracked) in Hpulls.
  split; [| split; [| split]].
  - unfold tracked. rewrite Hpulls. apply tracked_labelled. exact Htracked.
  - intros Hnone. unfold dday_labels at 1. unfold add_labels.
    cbn [labels with_labels filter]. rewrite Hnone. cbn [negb map].
    rewrite dday_labels_app. reflexivity.
  - intros Hhas. unfold add_labels. cbn [labels with_labels filter].
    rewrite Hhas. cbn [negb map]. apply app_nil_r.
  - rewrite Hsent. cbn. auto.
Qed.

(** A pull request at [D-1] that is handed to the initializer. *)
Lemma initializer_keeps_existing_dday_witness :
  let w := start [pull 42 ["D-1"; "bug"]] never in
  tracked (snd (addDdayLabel "o" "r" 42 "hook" w)) 42
  = Some (pull 42 ["D-1"; "bug"; "D-3"]).
Proof.
  cbv zeta.
  exact (proj1 (initializer_keeps_existing_dday "o" "r" 42 "hook"
                  (start [pull 42 ["D-1"; "bug"]] never)
                  (pull 42 ["D-1"; "bug"]) eq_refl eq_refl eq_refl)).
Defined.

(* ================================================================== *)
(** ** The Batch Updater, pull request by pull request *)
(* ================================================================== *)

Section BatchPerPull.

Variables owner repo slackWebhookUrl : string.

Lemma in_requests_for (pr : PullRequest) (c : call) :
  In c (requests_for owner repo slackWebhookUrl pr) <->
  label_differs pr /\
  (c = the_write owner repo pr \/ c = the_post slackWebhookUrl pr).
Proof.
  unfold requests_for. pose proof (changed_differs pr) as Hiff.
  destruct (changed pr); cbn [In].
  - split.
    + intros [<- | [<- | []]]; (split; [apply Hiff; reflexivity | auto]).
    + intros [_ [-> | ->]]; auto.
  - split; [intros [] |]. intros [Hd _]. apply Hiff in Hd. discriminate.
Qed.

(** The requests of the batch in a working network. *)
Lemma batch_sent (w : world) :
  working w ->
  requests_of (events_of (updatePRLabels owner repo slackWebhookUrl) w)
  = PullsList owner repo Open
    :: flat_map (requests_for owner repo slackWebhookUrl) (page w).
Proof.
  intros Hw. rewrite updatePRLabels_events by apply Hw.
  change (requests_of (Call ?c :: ?evs)) with (c :: requests_of evs).
  f_equal. apply for_of_working; [exact Hw |].
  intros pr Hpr. apply (page_is_tracked w pr Hpr).
Qed.

Lemma count_requests_for (data : list PullRequest) :
  length (filter is_post
            (flat_map (requests_for owner repo slackWebhookUrl) data))
  = length (filter changed data) /\
  length (filter is_write
            (flat_map (requests_for owner repo slackWebhookUrl) data))
  = length (filter changed data).
Proof.
  induction data as [| x data [IHp IHw]]; [split; reflexivity |].
  cbn [flat_map filter]. rewrite !filter_app, !length_app, IHp, IHw.
  unfold requests_for. destruct (changed x); split; reflexivity.
Qed.

(** The loop and the batch leave the failures of the network as they are. *)
Lemma for_of_failures (data : list PullRequest) :
  forall w,
    failures (snd (for_of data (update_one owner repo slackWebhookUrl) w))
    = failures w.
Proof.
  induction data as [| x data IH]; intros w; [reflexivity |].
  cbn [for_of]. unfold bind.
  pose proof (update_one_failures owner repo slackWebhookUrl x w) as Hx.
  destruct (update_one owner repo slackWebhookUrl x w) as [[[] | e] w1];
    cbn [snd] in *; [rewrite IH |]; exact Hx.
Qed.

Lemma updatePRLabels_working (w : world) :
  working w -> working (snd (updatePRLabels owner repo slackWebhookUrl w)).
Proof.
  intros Hw k. rewrite updatePRLabels_listed by apply Hw.
  rewrite for_of_failures. apply Hw.
Qed.

(** The loop changes the tracker's pull requests one by one, in place, and
    keeps the number and the state of each. *)
Lemma for_of_pulls_map (data : list PullRequest) :
  forall w, exists G,
    (forall p, number (G p) = number p /\ state (G p) = state p) /\
    pulls (snd (for_of data (update_one owner repo slackWebhookUrl) w))
    = map G (pulls w).
Proof.
  induction data as [| x data IH]; intros w.
  - exists (fun p => p). split; [auto |]. cbn. symmetry. apply map_id.
  - assert (Hx : exists g,
              (forall p, number (g p) = number p /\ state (g p) = state p) /\
              pulls (snd (update_one owner repo slackWebhookUrl x w))
              = map g (pulls w)).
    { rewrite update_one_pulls.
      destruct (changed x && answered w (number x)).
      - eexists. split; [| reflexivity].
        intros p. cbv beta.
        destruct (has_number (number x) p); split; reflexivity.
      - exists (fun p => p). split; [auto |]. symmetry. apply map_id. }
    destruct Hx as (g & Hg & Hpulls).
    cbn [for_of]. unfold bind.
    destruct (update_one owner repo slackWebhookUrl x w) as [[[] | e] w1];
      cbn [snd] in *.
    + destruct (IH w1) as (G & HG & HGpulls).
      exists (fun p => G (g p)). split.
      * intros p. destruct (HG (g p)), (Hg p). split; congruence.
      * rewrite HGpulls, Hpulls. apply map_map.
    + exists g. auto.
Qed.

(** The page of the next run is the page of this one, relabelled in place. *)
Lemma updatePRLabels_next_page (w : world) :
  exists G,
    (forall p, number (G p) = number p) /\
    pulls (snd (updatePRLabels owner repo slackWebhookUrl w)) = map G (pulls w) /\
    page (snd (updatePRLabels owner repo slackWebhookUrl w)) = map G (page w).
Proof.
  assert (Hmap : exists G,
            (forall p, number (G p) = number p /\ state (G p) = state p) /\
            pulls (snd (updatePRLabels owner repo slackWebhookUrl w))
            = map G (pulls w)).
  { destruct (failures w (requests w)) as [e |] eqn:Hfail.
    - rewrite (updatePRLabels_not_listed _ _ _ _ _ Hfail).
      exists (fun p => p). split; [auto |]. symmetry. apply map_id.
    - rewrite (updatePRLabels_listed _ _ _ _ Hfail).
      apply (for_of_pulls_map (page w) (listed owner repo w)). }
  destruct Hmap as (G & HG & Hpulls).
  exists G. split; [intros p; apply HG |]. split; [exact Hpulls |].
  unfold page. rewrite Hpulls, filter_map_swap, firstn_map. do 2 f_equal.
  apply filter_ext. intros p. unfold is_open.
  rewrite (proj2 (HG p)). reflexivity.
Qed.

(** With the network working and the numbers all different, the tracker
    holds every pull request of the page relabelled after the batch. *)
Lemma updatePRLabels_tracked (w : world) (pr : PullRequest) :
  working w -> NoDup (map number (pulls w)) -> In pr (page w) ->
  tracked (snd (updatePRLabels owner repo slackWebhookUrl w)) (number pr)
  = Some (relabelled pr).
Proof.
  intros Hw Hnodup Hpr. rewrite updatePRLabels_listed by apply Hw.
  refine (proj1 (for_of_relabels owner repo slackWebhookUrl (page w)
                   (listed owner repo w) Hw _ _) pr Hpr).
  - unfold page. apply nodup_map_firstn, nodup_map_filter, Hnodup.
  - intros q Hq. apply tracked_member; [exact Hnodup |].
    apply (in_page w q Hq).
Qed.

(** The next run finds the network working, the numbers all different, and
    the pull request, relabelled, on its page. *)
Lemma updatePRLabels_again (w : world) (pr : PullRequest) :
  working w -> NoDup (map number (pulls w)) -> In pr (page w) ->
  let w1 := snd (updatePRLabels owner repo slackWebhookUrl w) in
  working w1 /\ NoDup (map number (pulls w1)) /\ In (relabelled pr) (page w1).
Proof.
  intros Hw Hnodup Hpr w1.
  destruct (updatePRLabels_next_page w) as (G & HG & Hpulls & Hpage).
  fold w1 in Hpulls, Hpage.
  assert (Hnumbers : map number (pulls w1) = map number (pulls w)).
  { rewrite Hpulls, map_map. apply map_ext. exact HG. }
  assert (Hnodup1 : NoDup (map number (pulls w1))) by (rewrite Hnumbers; exact Hnodup).
  split; [apply updatePRLabels_working; exact Hw |]. split; [exact Hnodup1 |].
  assert (HGpr : In (G pr) (page w1)) by (rewrite Hpage; apply in_map; exact Hpr).
  replace (relabelled pr) with (G pr); [exact HGpr |].
  pose proof (tracked_member (pulls w1) (G pr) Hnodup1
                (proj1 (in_page w1 _ HGpr))) as Hfound.
  rewrite HG in Hfound. fold (tracked w1 (number pr)) in Hfound.
  unfold w1 in Hfound. rewrite (updatePRLabels_tracked w pr Hw Hnodup Hpr) in Hfound.
  congruence.
Qed.

(** Two pull requests of the page with one number are one pull request. *)
Lemma page_number_inj (w : world) (pr pr' : PullRequest) :
  NoDup (map number (pulls w)) -> In pr (page w) -> In pr' (page w) ->
  number pr' = number pr -> pr' = pr.
Proof.
  intros Hnodup Hpr Hpr' Hnum.
  pose proof (tracked_member (pulls w) pr Hnodup (proj1 (in_page w _ Hpr))) as H.
  pose proof (tracked_member (pulls w) pr' Hnodup (proj1 (in_page w _ Hpr'))) as H'.
  rewrite Hnum in H'. congruence.
Qed.

End BatchPerPull.

Lemma dday_relabelled (pr : PullRequest) :
  dday (relabelled pr) = Some (newLabel pr).
Proof.
  unfold relabelled. destruct (changed pr) eqn:Hchanged.
  - apply dday_replace_labels.
  - unfold changed, dday in *.
    destruct (currentLabel pr) as [current |]; [| discriminate].
    apply negb_false_iff in Hchanged. apply String.eqb_eq in Hchanged.
    cbn [option_map]. rewrite Hchanged. reflexivity.
Qed.

Lemma relabelled_same (pr : PullRequest) :
  ~ label_differs pr -> relabelled pr = pr.
Proof.
  intros Hsame. unfold relabelled.
  destruct (changed pr) eqn:Hchanged; [| reflexivity].
  exfalso. apply Hsame, changed_differs, Hchanged.
Qed.

Lemma number_relabelled (pr : PullRequest) : number (relabelled pr) = number pr.
Proof. unfold relabelled. destruct (changed pr); reflexivity. Qed.

(** C2. In a run of the Batch Updater with the network working, every pull
    request of the page whose computed label differs from its current
    D-label (or that has none) gets its write and its notification; every
    write and every notification of the run is that of a pull request of the
    page whose label differs; and there are as many notifications, and as
    many writes, as pull requests whose label differs: none for a pull
    request whose label is the same. *)
Theorem batch_notifies_iff_changed
    (owner repo slackWebhookUrl : string) (w : world) :
  working w ->
  let sent :=
    requests_of (events_of (updatePRLabels owner repo slackWebhookUrl) w) in
  (forall pr, In pr (page w) -> label_differs pr ->
     In (the_write owner repo pr) sent /\ In (the_post slackWebhookUrl pr) sent) /\
  (forall c, In c sent ->
     c = PullsList owner repo Open \/
     exists pr, In pr (page w) /\ label_differs pr /\
       (c = the_write owner repo pr \/ c = the_post slackWebhookUrl pr)) /\
  length (filter is_post sent) = length (filter changed (page w)) /\
  length (filter is_write sent) = length (filter changed (page w)) /\
  (forall pr, changed pr = true <-> label_differs pr).
Proof.
  intros Hw. cbv zeta. rewrite (batch_sent owner repo slackWebhookUrl w Hw).
  split; [| split; [| split; [| split]]].
  - intros pr Hpr Hdiff.
    split; right; apply in_flat_map; exists pr; (split; [exact Hpr |]);
      apply in_requests_for; auto.
  - intros c [<- | Hin]; [left; reflexivity | right].
    apply in_flat_map in Hin as (pr & Hpr & Hc).
    apply in_requests_for in Hc as [Hdiff Hc]. exists pr. auto.
  - cbn [filter is_post]. apply count_requests_for.
  - cbn [filter is_write]. apply count_requests_for.
  - intros pr. apply changed_differs.
Qed.

(** The three scenarios of the specification in one run: two notifications,
    one of them for the pull request at [D-2]. *)
Lemma batch_notifies_iff_changed_witness :
  let w := start [pull 7 ["D-2"; "bug"]; pull 8 ["D-0"; "bug"];
                  pull 9 ["enhancement"]] never in
  let sent := requests_of (events_of (updatePRLabels "o" "r" "hook") w) in
  In (the_post "hook" (pull 7 ["D-2"; "bug"])) sent /\
  length (filter is_post sent) = 2%nat.
Proof.
  cbv zeta.
  destruct (batch_notifies_iff_changed "o" "r" "hook"
              (start [pull 7 ["D-2"; "bug"]; pull 8 ["D-0"; "bug"];
                      pull 9 ["enhancement"]] never))
    as (Hsent & _ & Hposts & _).
  - intros k. reflexivity.
  - split; [| exact Hposts].
    apply (Hsent (pull 7 ["D-2"; "bug"])).
    + left. reflexivity.
    + vm_compute. discriminate.
Defined.

(** C10. In a run of the Batch Updater with the network working, a pull
    request of the page whose first D-label has a text after [D-] that
    [parseInt] does not read as a number is not skipped and not reset to
    [D-3]: the computed label is [D-0], the run writes [D-0] and the other
    labels of the pull request and posts the notification for [D-0], and,
    the numbers all different, the tracker then holds it at [D-0]. *)
Theorem batch_sets_malformed_label_to_due_today
    (owner repo slackWebhookUrl : string) (w : world) (pr : PullRequest)
    (current : Label) :
  working w ->
  In pr (page w) ->
  currentLabel pr = Some current ->
  Js.parseInt (Js.slice 2 (name current)) = Js.NaN ->
  let sent :=
    requests_of (events_of (updatePRLabels owner repo slackWebhookUrl) w) in
  let w1 := snd (updatePRLabels owner repo slackWebhookUrl w) in
  newLabel pr = "D-0" /\
  newLabel pr <> "D-3" /\
  label_differs pr /\
  In (IssuesSetLabels owner repo (number pr) ("D-0" :: other_labels pr)) sent /\
  In (AxiosPost slackWebhookUrl (notification (summary pr) "D-0")) sent /\
  (NoDup (map number (pulls w)) ->
     exists pr',
       tracked w1 (number pr) = Some pr' /\
       dday pr' = Some "D-0" /\
       other_labels pr' = other_labels pr).
Proof.
  intros Hw Hpr Hcur Hnan. cbv zeta.
  destruct (malformed_label_becomes_due_today owner repo slackWebhookUrl
              pr current w Hcur Hnan) as (Hnew & Hnot3 & Hdiff & _).
  assert (Hwrite : the_write owner repo pr
                   = IssuesSetLabels owner repo (number pr)
                       ("D-0" :: other_labels pr)).
  { unfold the_write, written_labels. rewrite Hnew. reflexivity. }
  assert (Hpost : the_post slackWebhookUrl pr
                  = AxiosPost slackWebhookUrl (notification (summary pr) "D-0")).
  { unfold the_post. rewrite Hnew. reflexivity. }
  rewrite (batch_sent owner repo slackWebhookUrl w Hw), <- Hwrite, <- Hpost.
  repeat split; try assumption.
  - right. apply in_flat_map. exists pr. split; [exact Hpr |].
    apply in_requests_for. auto.
  - right. apply in_flat_map. exists pr. split; [exact Hpr |].
    apply in_requests_for. auto.
  - intros Hnodup. exists (relabelled pr). split; [| split].
    + apply updatePRLabels_tracked; assumption.
    + rewrite dday_relabelled, Hnew. reflexivity.
    + unfold relabelled. rewrite (proj2 (changed_differs pr) Hdiff).
      rewrite other_labels_replace. apply filter_non_dday_written.
Qed.

(** A pull request labelled [D-urgent], after one at [D-2]. *)
Lemma batch_sets_malformed_label_to_due_today_witness :
  let w := start [pull 4 ["D-2"]; pull 5 ["D-urgent"; "bug"]] never in
  let sent := requests_of (events_of (updatePRLabels "o" "r" "hook") w) in
  In (IssuesSetLabels "o" "r" 5 ["D-0"; "bug"]) sent /\
  In (AxiosPost "hook" (notification (summary (pull 5 ["D-urgent"; "bug"])) "D-0"))
    sent.
Proof.
  cbv zeta.
  destruct (batch_sets_malformed_label_to_due_today "o" "r" "hook"
              (start [pull 4 ["D-2"]; pull 5 ["D-urgent"; "bug"]] never)
              (pull 5 ["D-urgent"; "bug"]) (lbl "D-urgent"))
    as (_ & _ & _ & Hwrite & Hpost & _).
  - intros k. reflexivity.
  - right. left. reflexivity.
  - reflexivity.
  - reflexivity.
  - split; [exact Hwrite | exact Hpost].
Defined.

(** From a state of the countdown other than [D-0] the label differs, and
    after it the label differs again unless it is [D-0]. *)
Lemma countdown_state_differs (pr : PullRequest) :
  dday pr = None \/ dday pr = Some "D-3" \/ dday pr = Some "D-2"
    \/ dday pr = Some "D-1" ->
  label_differs pr /\
  (label_differs (relabelled pr) <-> dday (relabelled pr) <> Some "D-0").
Proof.
  intros Hstate.
  destruct (newLabel_table pr) as (T3 & T2 & T1 & T0 & _).
  destruct (newLabel_table (relabelled pr)) as (_ & T2' & T1' & T0' & Tfix').
  pose proof (dday_relabelled pr) as Hnext.
  unfold label_differs. rewrite Hnext in *.
  destruct Hstate as [H | [H | [H | H]]]; rewrite H;
    [rewrite (T3 H) in * | rewrite (T2 H) in * | rewrite (T1 H) in *
    | rewrite (T0 H) in *].
  - rewrite (T2' eq_refl). repeat split; discriminate.
  - rewrite (T1' eq_refl). repeat split; discriminate.
  - rewrite (T0' eq_refl). repeat split; discriminate.
  - rewrite (Tfix' eq_refl). split; [discriminate | tauto].
Qed.

(** C4. A pull request at [D-0] is a fixed point of the Batch Updater: with
    the network working and the numbers all different, a run leaves it in the
    tracker as it is, and so does the next, and no request of the run is a
    write or a notification for it.  From every other state of the countdown
    (no D-label, [D-3], [D-2], [D-1]) the run writes and notifies, the tracker
    then holds the computed label, which differs from the one before, and the
    next run changes the label again, and writes again, exactly when it has
    not reached [D-0]. *)
Theorem due_today_is_the_fixed_point_of_the_batch
    (owner repo slackWebhookUrl : string) (w : world) (pr : PullRequest) :
  working w ->
  NoDup (map number (pulls w)) ->
  In pr (page w) ->
  let w1 := snd (updatePRLabels owner repo slackWebhookUrl w) in
  let w2 := snd (updatePRLabels owner repo slackWebhookUrl w1) in
  let sent :=
    requests_of (events_of (updatePRLabels owner repo slackWebhookUrl) w) in
  let again :=
    requests_of (events_of (updatePRLabels owner repo slackWebhookUrl) w1) in
  (dday pr = Some "D-0" ->
     tracked w1 (number pr) = Some pr /\
     tracked w2 (number pr) = Some pr /\
     (forall c, In c sent ->
        c = PullsList owner repo Open \/
        exists pr', In pr' (page w) /\ number pr' <> number pr /\
          (c = the_write owner repo pr' \/ c = the_post slackWebhookUrl pr'))) /\
  (dday pr = None \/ dday pr = Some "D-3" \/ dday pr = Some "D-2"
     \/ dday pr = Some "D-1" ->
     exists pr1 pr2,
       tracked w1 (number pr) = Some pr1 /\
       tracked w2 (number pr) = Some pr2 /\
       In (the_write owner repo pr) sent /\
       In (the_post slackWebhookUrl pr) sent /\
       dday pr1 = Some (newLabel pr) /\
       dday pr1 <> dday pr /\
       dday pr2 = Some (newLabel pr1) /\
       (dday pr2 <> dday pr1 <-> dday pr1 <> Some "D-0") /\
       (In (the_write owner repo pr1) again <-> dday pr1 <> Some "D-0")).
Proof.
  intros Hw Hnodup Hpr. cbv zeta.
  set (w1 := snd (updatePRLabels owner repo slackWebhookUrl w)).
  pose proof (updatePRLabels_tracked owner repo slackWebhookUrl w pr
                Hw Hnodup Hpr) as H1. fold w1 in H1.
  destruct (updatePRLabels_again owner repo slackWebhookUrl w pr
              Hw Hnodup Hpr) as (Hw1 & Hnodup1 & Hpr1). fold w1 in Hw1, Hnodup1, Hpr1.
  pose proof (updatePRLabels_tracked owner repo slackWebhookUrl w1
                (relabelled pr) Hw1 Hnodup1 Hpr1) as H2.
  rewrite number_relabelled in H2.
  rewrite (batch_sent owner repo slackWebhookUrl w Hw).
  rewrite (batch_sent owner repo slackWebhookUrl w1 Hw1).
  split.
  - intros H0.
    assert (Hsame : ~ label_differs pr).
    { unfold label_differs.
      rewrite H0, (proj2 (proj2 (proj2 (proj2 (newLabel_table pr)))) H0).
      intros H. apply H. reflexivity. }
    rewrite (relabelled_same pr Hsame) in *.
    rewrite (relabelled_same pr Hsame) in H2.
    split; [exact H1 |]. split; [exact H2 |].
    intros c [<- | Hin]; [left; reflexivity | right].
    apply in_flat_map in Hin as (pr' & Hpr' & Hc).
    apply in_requests_for in Hc as [Hdiff Hc].
    exists pr'. split; [exact Hpr' |]. split; [| exact Hc].
    intros Hnum. apply Hsame.
    rewrite <- (page_number_inj w pr pr' Hnodup Hpr Hpr' Hnum). exact Hdiff.
  - intros Hstate.
    destruct (countdown_state_differs pr Hstate) as [Hdiff Hagain].
    exists (relabelled pr), (relabelled (relabelled pr)).
    pose proof (dday_relabelled pr) as Hd1.
    pose proof (dday_relabelled (relabelled pr)) as Hd2.
    split; [exact H1 |]. split; [exact H2 |].
    split; [| split; [| split; [| split; [| split; [| split]]]]].
    + right. apply in_flat_map. exists pr. split; [exact Hpr |].
      apply in_requests_for. auto.
    + right. apply in_flat_map. exists pr. split; [exact Hpr |].
      apply in_requests_for. auto.
    + exact Hd1.
    + rewrite Hd1. intros Heq. apply Hdiff. unfold label_differs.
      rewrite Heq. reflexivity.
    + exact Hd2.
    + rewrite <- Hagain. unfold label_differs. rewrite Hd2.
      split; intros H Heq; apply H; congruence.
    + rewrite <- Hagain. split.
      * intros [Heq | Hin]; [discriminate Heq |].
        apply in_flat_map in Hin as (q & Hq & Hc).
        apply in_requests_for in Hc as [Hq_diff [Hc | Hc]];
          [| discriminate Hc].
        injection Hc as Hnum _.
        rewrite (page_number_inj w1 q (relabelled pr) Hnodup1 Hq Hpr1 Hnum).
        exact Hq_diff.
      * intros Hd. right. apply in_flat_map. exists (relabelled pr).
        split; [exact Hpr1 |]. apply in_requests_for. auto.
Qed.

(** Scenario 2 of the specification, beside a pull request at [D-1]: the
    first stays as it is, the second reaches [D-0] and stays there. *)
Lemma due_today_is_the_fixed_point_of_the_batch_witness :
  let w := start [pull 7 ["D-1"]; pull 8 ["D-0"; "bug"]] never in
  let w1 := snd (updatePRLabels "o" "r" "hook" w) in
  let w2 := snd (updatePRLabels "o" "r" "hook" w1) in
  (tracked w1 8 = Some (pull 8 ["D-0"; "bug"]) /\
   tracked w2 8 = Some (pull 8 ["D-0"; "bug"])) /\
  exists pr1 pr2,
    tracked w1 7 = Some pr1 /\ tracked w2 7 = Some pr2 /\
    dday pr1 = Some "D-0" /\ dday pr1 <> Some "D-1" /\ dday pr2 = dday pr1.
Proof.
  cbv zeta.
  assert (Hw : working (start [pull 7 ["D-1"]; pull 8 ["D-0"; "bug"]] never))
    by (intros k; reflexivity).
  assert (Hnodup : NoDup (map number
            (pulls (start [pull 7 ["D-1"]; pull 8 ["D-0"; "bug"]] never))))
    by (repeat constructor; cbn; intuition discriminate).
  split.
  - destruct (proj1 (due_today_is_the_fixed_point_of_the_batch "o" "r" "hook"
                       _ (pull 8 ["D-0"; "bug"]) Hw Hnodup
                       (or_intror (or_introl eq_refl))) eq_refl)
      as (H1 & H2 & _).
    split; [exact H1 | exact H2].
  - destruct (proj2 (due_today_is_the_fixed_point_of_the_batch "o" "r" "hook"
                       _ (pull 7 ["D-1"]) Hw Hnodup (or_introl eq_refl))
                (or_intror (or_intror (or_intror eq_refl))))
      as (pr1 & pr2 & H1 & H2 & _ & _ & Hd1 & Hne & Hd2 & Hiff & _).
    exists pr1, pr2. split; [exact H1 |]. split; [exact H2 |].
    split; [exact Hd1 |]. split; [exact Hne |].
    rewrite Hd2, Hd1. f_equal.
    exact (proj2 (proj2 (proj2 (proj2 (newLabel_table pr1)))) Hd1).
Defined.
